(** * vmexporter: the export handler, its query translator and its record
      converter

    A shallow embedding of [vmexporter.py] (the functions [make_url] and
    [handle_export]) and the properties of its specification.

    Conventions of the embedding.

    - A Python [str] is a Rocq [string] holding the UTF-8 encoding of the
      text, so that ASCII text reads as it is written in the source; a
      surrogate that the [str] holds alone is kept in the three-byte form,
      and [encode] is the step that refuses it.
    - A raised exception is a value of [exn]; a computation that may raise
      returns [exn + A] ([inl] raises, [inr] returns).
    - The module-level Prometheus instruments ([DURATION_METRIC],
      [EXPORT_COUNT], [EXPORT_FAILS], [EXPORT_LINES]) are maps from the
      value of the [target] label to the child's value, threaded through the
      handler together with the clock and the upstream store.
    - What the program takes from the Python runtime and cannot be computed
      here (binary floating point, the JSON decoder, [repr] of a string) is
      the interface [Python]; every general theorem holds for each
      implementation of it.  [reference] is an executable implementation
      used to run the handler on concrete requests. *)

From Stdlib Require Import Ascii ZArith.
From stdpp Require Import gmap strings list pretty.

(** ** Text *)

Definition dquote : ascii := "034"%char.
Definition LF : ascii := "010"%char.
Definition CR : ascii := "013"%char.

Definition nl : string := String LF "".
Definition dq : string := String dquote "".

(** [qq s] is [s] with every backquote replaced by a double quote: it lets
    JSON and exposition text be written legibly inside a string literal. *)
Fixpoint qq (s : string) : string :=
  match s with
  | EmptyString => EmptyString
  | String c s' => String (if Ascii.eqb c "`" then dquote else c) (qq s')
  end.

(** A byte [10xxxxxx] continues a UTF-8 sequence; any other byte starts a
    character. *)
Definition is_continuation (c : ascii) : bool :=
  let n := nat_of_ascii c in (128 <=? n)%nat && (n <? 192)%nat.

(** The characters of a text, each as a one-character string (what iterating
    over a [str] yields). *)
Fixpoint chars_from (cur : option string) (s : string) : list string :=
  match s with
  | EmptyString => match cur with Some c => [c] | None => [] end
  | String b s' =>
      if is_continuation b then
        chars_from (Some (default "" cur +:+ String b "")) s'
      else
        match cur with
        | Some c => c :: chars_from (Some (String b "")) s'
        | None => chars_from (Some (String b "")) s'
        end
  end.

Definition chars : string → list string := chars_from None.

(** A surrogate (U+D800 to U+DFFF), which a [str] can hold alone: the three
    bytes ED, A0 to BF, 80 to BF. *)
Definition is_surrogate (c : string) : bool :=
  match c with
  | String b0 (String b1 (String _ EmptyString)) =>
      (nat_of_ascii b0 =? 237)%nat && (160 <=? nat_of_ascii b1)%nat
  | _ => false
  end.

(** [text.encode("utf-8")] goes through: the text holds no surrogate. *)
Definition encodable (text : string) : bool :=
  forallb (λ c, negb (is_surrogate c)) (chars text).

Definition hex_lower (n : nat) : ascii :=
  ascii_of_nat (if (n <? 10)%nat then 48 + n else 87 + n).

(** The escape [\udxxx] under which a message shows the surrogate [c]. *)
Definition surrogate_escape (c : string) : string :=
  match c with
  | String _ (String b1 (String b2 EmptyString)) =>
      let n := (nat_of_ascii b1 - 128) * 64 + (nat_of_ascii b2 - 128) in
      String "\" (String "u" (String "d"
        (String (hex_lower (n / 256))
           (String (hex_lower (n / 16 mod 16))
              (String (hex_lower (n mod 16)) EmptyString)))))
  | _ => EmptyString
  end.

(** The surrogates that start a list of characters. *)
Fixpoint surrogate_run (cs : list string) : nat :=
  match cs with
  | c :: cs' => if is_surrogate c then S (surrogate_run cs') else 0
  | [] => 0
  end.

(** [str(UnicodeEncodeError)] for the first surrogates of a text, met at
    position [pos] of it. *)
Fixpoint surrogates_not_allowed (cs : list string) (pos : nat)
  : option string :=
  match cs with
  | [] => None
  | c :: cs' =>
      if is_surrogate c then
        Some ("'utf-8' codec can't encode "
              +:+ match surrogate_run cs' with
                  | 0 => "character '" +:+ surrogate_escape c
                         +:+ "' in position " +:+ pretty pos
                  | S more => "characters in position " +:+ pretty pos
                              +:+ "-" +:+ pretty (pos + S more)
                  end
              +:+ ": surrogates not allowed")
      else surrogates_not_allowed cs' (S pos)
  end.

(** One-byte line boundaries of [str.splitlines]: LF, VT, FF, FS, GS, RS (CR
    and the multi-byte boundaries are handled in [splitlines_from]). *)
Definition is_line_break (c : ascii) : bool :=
  let n := nat_of_ascii c in
  (n =? 10)%nat || (n =? 11)%nat || (n =? 12)%nat
  || (n =? 28)%nat || (n =? 29)%nat || (n =? 30)%nat.

(** [str.splitlines()]: boundaries are LF, CR, CR LF, VT, FF, FS, GS, RS,
    U+0085 (bytes C2 85), U+2028 and U+2029 (bytes E2 80 A8 and E2 80 A9); the
    boundaries are dropped and a final line needs no boundary. *)
Fixpoint splitlines_from (cur : string) (s : string) {struct s} : list string :=
  match s with
  | EmptyString => match cur with EmptyString => [] | _ => [cur] end
  | String c s' =>
      if Ascii.eqb c CR then
        match s' with
        | String c' s'' =>
            if Ascii.eqb c' LF then cur :: splitlines_from "" s''
            else cur :: splitlines_from "" s'
        | EmptyString => cur :: splitlines_from "" s'
        end
      else if is_line_break c then cur :: splitlines_from "" s'
      else
        match s' with
        | String c1 s2 =>
            if (nat_of_ascii c =? 194)%nat && (nat_of_ascii c1 =? 133)%nat
            then cur :: splitlines_from "" s2
            else
              match s2 with
              | String c2 s3 =>
                  if (nat_of_ascii c =? 226)%nat && (nat_of_ascii c1 =? 128)%nat
                     && ((nat_of_ascii c2 =? 168)%nat
                         || (nat_of_ascii c2 =? 169)%nat)
                  then cur :: splitlines_from "" s3
                  else splitlines_from (cur +:+ String c "") s'
              | EmptyString => splitlines_from (cur +:+ String c "") s'
              end
        | EmptyString => splitlines_from (cur +:+ String c "") s'
        end
  end.

Definition splitlines : string → list string := splitlines_from "".

(** [sep.join(parts)]. *)
Definition join (sep : string) (parts : list string) : string :=
  String.concat sep parts.

(** ** Exceptions *)

(** The exception classes the handler can meet.  A subclass is filed under
    its nearest class listed here: [ClientError] is
    [aiohttp.client_exceptions.ClientError] with its subclasses,
    [JSONDecodeError] is [json.JSONDecodeError], [ValueError] is every other
    [ValueError] (for instance [UnicodeDecodeError]); [KeyError], [TypeError]
    and [AttributeError] are the builtins; [OtherError] names any other class
    (for instance [asyncio.TimeoutError]).  Each carries [str(exc)], except
    [KeyError] which carries the missing key. *)
Inductive exn : Type :=
  | ClientError (msg : string)
  | JSONDecodeError (msg : string)
  | ValueError (msg : string)
  | KeyError (key : string)
  | TypeError (msg : string)
  | AttributeError (msg : string)
  | OtherError (cls msg : string).

Definition result (A : Type) : Type := (exn + A)%type.

Definition rbind {A B : Type} (r : result A) (k : A → result B) : result B :=
  match r with
  | inl e => inl e
  | inr a => k a
  end.

Notation "'let?' x ':=' r 'in' k" := (rbind r (λ x, k))
  (at level 10, x name, r at level 100, k at level 200,
   format "'[' 'let?'  x  ':='  r  'in' ']' '/' k") : stdpp_scope.
Notation "'let?' ' p ':=' r 'in' k" := (rbind r (λ x, match x with p => k end))
  (at level 10, p pattern, r at level 100, k at level 200,
   format "'[' 'let?'  ' p  ':='  r  'in' ']' '/' k") : stdpp_scope.

(** ** JSON values *)

(** What [json.loads] returns: [None], [bool], [int], [float], [str], [list]
    and [dict].  A [dict] is the list of its items in insertion order, with
    keys that are pairwise distinct. *)
#[warnings="-register-all"]
Inductive json {F : Type} : Type :=
  | JNull
  | JBool (b : bool)
  | JInt (n : Z)
  | JFloat (x : F)
  | JString (s : string)
  | JArray (items : list json)
  | JObject (items : list (string * json)).
Arguments json : clear implicits.

(** ** The Python runtime *)

Class Python : Type := {
  (** the type [float] (IEEE 754 binary64) *)
  pyfloat : Type;
  (** [float(s)] on a [str]; [None] stands for [ValueError] *)
  float_of_str : string → option pyfloat;
  (** [x - y] on floats *)
  float_sub : pyfloat → pyfloat → pyfloat;
  (** [str(x)], which is also [repr(x)] and [format(x, '')] *)
  float_str : pyfloat → string;
  (** [x < 0.0] *)
  float_negative : pyfloat → bool;
  (** [x <= y] on floats *)
  float_le : pyfloat → pyfloat → bool;
  (** [repr(s)] of a [str] *)
  str_repr : string → string;
  (** [json.loads(s)] *)
  loads : string → result (json pyfloat);
  (** the text of a float is never empty *)
  float_str_nonempty : ∀ x, float_str x ≠ "";
  (** [x - y] is not below zero when [y <= x] (in binary64 the difference
      is then zero, positive or, for two infinities, not a number) *)
  float_sub_le : ∀ x y, float_le y x = true →
                        float_negative (float_sub x y) = false;
}.

Abbreviation value := (json pyfloat).
Abbreviation dict := (list (string * json pyfloat)).

(** ** Python operations on JSON values *)

Section Values.
Context `{Python}.

(** [type(obj).__name__] *)
Definition type_name (obj : value) : string :=
  match obj with
  | JNull => "NoneType"
  | JBool _ => "bool"
  | JInt _ => "int"
  | JFloat _ => "float"
  | JString _ => "str"
  | JArray _ => "list"
  | JObject _ => "dict"
  end.

(** [repr(obj)]: a [str] inside a container is shown by its [repr]. *)
Fixpoint py_repr (obj : value) : string :=
  match obj with
  | JNull => "None"
  | JBool true => "True"
  | JBool false => "False"
  | JInt n => pretty n
  | JFloat x => float_str x
  | JString s => str_repr s
  | JArray items => "[" +:+ join ", " (map py_repr items) +:+ "]"
  | JObject items =>
      "{" +:+ join ", " (map (λ kv, str_repr kv.1 +:+ ": " +:+ py_repr kv.2)
                           items) +:+ "}"
  end.

(** [str(obj)], which is what a replacement field [{obj}] of an f-string
    inserts: the text itself for a [str], [repr(obj)] otherwise. *)
Definition py_str (obj : value) : string :=
  match obj with
  | JString s => s
  | _ => py_repr obj
  end.

(** [d.get(key)] on the items of a [dict]. *)
Fixpoint dict_get (d : dict) (key : string) : option value :=
  match d with
  | [] => None
  | (k, v) :: d' => if String.eqb k key then Some v else dict_get d' key
  end.

(** The items left when [key] is deleted. *)
Fixpoint dict_del (d : dict) (key : string) : dict :=
  match d with
  | [] => []
  | (k, v) :: d' =>
      if String.eqb k key then dict_del d' key else (k, v) :: dict_del d' key
  end.

(** [obj[key]] with a [str] key. *)
Definition getitem (obj : value) (key : string) : result value :=
  match obj with
  | JObject d =>
      match dict_get d key with
      | Some v => inr v
      | None => inl (KeyError key)
      end
  | JArray _ =>
      inl (TypeError "list indices must be integers or slices, not str")
  | JString _ => inl (TypeError "string indices must be integers, not 'str'")
  | _ => inl (TypeError ("'" +:+ type_name obj
                         +:+ "' object is not subscriptable"))
  end.

(** [obj.pop(key)] with a [str] key: the value removed and, since [pop]
    mutates [obj], the items [obj] is left with. *)
Definition pop (obj : value) (key : string) : result (value * dict) :=
  match obj with
  | JObject d =>
      match dict_get d key with
      | Some v => inr (v, dict_del d key)
      | None => inl (KeyError key)
      end
  | JArray _ =>
      inl (TypeError "'str' object cannot be interpreted as an integer")
  | _ => inl (AttributeError ("'" +:+ type_name obj
                              +:+ "' object has no attribute 'pop'"))
  end.

(** [iter(obj)] run to its end: the elements of a [list], the characters of
    a [str], the keys of a [dict]. *)
Definition iter (obj : value) : result (list value) :=
  match obj with
  | JArray items => inr items
  | JString s => inr (JString <$> chars s)
  | JObject d => inr ((λ kv, JString kv.1) <$> d)
  | _ => inl (TypeError ("'" +:+ type_name obj +:+ "' object is not iterable"))
  end.

(** [zip(a, b)] run to its end. *)
Definition py_zip (a b : value) : result (list (value * value)) :=
  let? xs := iter a in
  let? ys := iter b in
  inr (zip xs ys).

End Values.

(** ** Requests, responses and the process state *)

(** [MultiMapping[str]]: the query parameters in the order of the query
    string; a key may occur several times. *)
Definition MultiMapping : Type := list (string * string).

(** [key in query] *)
Definition contains (query : MultiMapping) (key : string) : bool :=
  existsb (λ kv, String.eqb kv.1 key) query.

(** [query.get(key)]: the first value of [key], or [None]. *)
Fixpoint get (query : MultiMapping) (key : string) : option string :=
  match query with
  | [] => None
  | (k, v) :: query' => if String.eqb k key then Some v else get query' key
  end.

(** [query[key]]: the first value of [key], or [KeyError]. *)
Definition getone (query : MultiMapping) (key : string) : result string :=
  match get query key with
  | Some v => inr v
  | None => inl (KeyError key)
  end.

(** The mapping a caller sends when it leaves [key] out: [query] without
    the occurrences of [key]. *)
Fixpoint without (key : string) (query : MultiMapping) : MultiMapping :=
  match query with
  | [] => []
  | (k, v) :: query' =>
      if String.eqb k key then without key query'
      else (k, v) :: without key query'
  end.

Record Request : Type := mkRequest {
  query : MultiMapping;
  headers : list (string * string);
}.

Record Response : Type := mkResponse {
  status : nat;
  body : string;
  content_type : string;
}.

(** [HTTPStatus.BAD_REQUEST] and [HTTPStatus.OK] *)
Definition BAD_REQUEST : nat := 400.
Definition OK : nat := 200.

(** [text.encode("utf-8")]: the bytes of the text, or [UnicodeEncodeError],
    which is a [ValueError]. *)
Definition encode (text : string) : result string :=
  match surrogates_not_allowed (chars text) 0 with
  | Some msg => inl (ValueError msg)
  | None => inr text
  end.

(** [Response(body=text, status=status, content_type="text/plain")] with a
    [str] as its body: the response takes the text encoded as UTF-8, and
    the exception of the encoding leaves its constructor. *)
Definition text_response (status : nat) (text : string) : result Response :=
  match encode text with
  | inl exc => inl exc
  | inr _ => inr (mkResponse status text "text/plain")
  end.

(** [labels(target).inc(amount)] on a counter: the child of a label value
    that was never used starts at 0.  The handler only adds 1 or a length,
    so the value of a counter is kept as a natural number. *)
Definition inc (target : string) (amount : nat) (counter : gmap string nat)
  : gmap string nat :=
  <[target := default 0 (counter !! target) + amount]> counter.

(** The value a counter shows for [target]. *)
Definition count (counter : gmap string nat) (target : string) : nat :=
  default 0 (counter !! target).

Section Handler.
Context `{Python}.

(** The state the handler runs in: the four instruments, the clock (the
    values the successive calls of [time()] return, and how many calls
    were made), the upstream side and the calls of the HTTP client so far,
    latest first.  [upstream base_url headers url] is what comes out of
    lines 136 to 141 when the client is called with these values: the text
    of the response, or the exception raised on the way (by the session
    refusing [base_url], by the parsing of [url], by the transport, by the
    decoding of the body).  What the client puts on the wire (no request
    at all, the path without its fragment, the requests of a redirection)
    is the client's affair and is not described; [client_calls] records
    only that the handler called the client, with which target and which
    path. *)
Record World : Type := mkWorld {
  DURATION_METRIC : gmap string pyfloat;
  EXPORT_COUNT : gmap string nat;
  EXPORT_FAILS : gmap string nat;
  EXPORT_LINES : gmap string nat;
  clock : nat → pyfloat;
  ticks : nat;
  upstream : string → list (string * string) → string → result string;
  client_calls : list (string * string);
}.

(** Computations that read and change the world and may raise. *)
Definition M (A : Type) : Type := World → result A * World.

Definition ret {A : Type} (a : A) : M A := λ w, (inr a, w).

Definition raise {A : Type} (e : exn) : M A := λ w, (inl e, w).

Definition bind {A B : Type} (m : M A) (k : A → M B) : M B :=
  λ w, match m w with
       | (inl e, w') => (inl e, w')
       | (inr a, w') => k a w'
       end.

(** A pure computation that may raise. *)
Definition lift {A : Type} (r : result A) : M A := λ w, (r, w).

(** The body of a [try]: the exception it raises, if any, is handed to the
    [except] clauses as a value. *)
Definition try {A : Type} (m : M A) : M (result A) :=
  λ w, let (r, w') := m w in (inr r, w').

(** [time()] *)
Definition time : M pyfloat :=
  λ w, (inr (clock w (ticks w)),
        mkWorld (DURATION_METRIC w) (EXPORT_COUNT w) (EXPORT_FAILS w)
                (EXPORT_LINES w) (clock w) (S (ticks w)) (upstream w)
                (client_calls w)).

(** [DURATION_METRIC.labels(target).set(value=v)] *)
Definition DURATION_METRIC_set (target : string) (v : pyfloat) : M unit :=
  λ w, (inr (),
        mkWorld (<[target := v]> (DURATION_METRIC w)) (EXPORT_COUNT w)
                (EXPORT_FAILS w) (EXPORT_LINES w) (clock w) (ticks w)
                (upstream w) (client_calls w)).

(** [EXPORT_COUNT.labels(target).inc()] *)
Definition EXPORT_COUNT_inc (target : string) : M unit :=
  λ w, (inr (),
        mkWorld (DURATION_METRIC w) (inc target 1 (EXPORT_COUNT w))
                (EXPORT_FAILS w) (EXPORT_LINES w) (clock w) (ticks w)
                (upstream w) (client_calls w)).

(** [EXPORT_FAILS.labels(target).inc()] *)
Definition EXPORT_FAILS_inc (target : string) : M unit :=
  λ w, (inr (),
        mkWorld (DURATION_METRIC w) (EXPORT_COUNT w)
                (inc target 1 (EXPORT_FAILS w)) (EXPORT_LINES w) (clock w)
                (ticks w) (upstream w) (client_calls w)).

(** [EXPORT_LINES.labels(target).inc(amount=amount)] *)
Definition EXPORT_LINES_inc (target : string) (amount : nat) : M unit :=
  λ w, (inr (),
        mkWorld (DURATION_METRIC w) (EXPORT_COUNT w) (EXPORT_FAILS w)
                (inc target amount (EXPORT_LINES w)) (clock w) (ticks w)
                (upstream w) (client_calls w)).

(** Lines 136 to 141 up to [response.text()]: the client is called with
    the target as the base of a fresh session, the headers of the request
    and the path, and answers with the text of the response, whatever its
    status, or raises. *)
Definition session_get (base_url : string) (hdrs : list (string * string))
    (url : string) : M string :=
  λ w, (upstream w base_url hdrs url,
        mkWorld (DURATION_METRIC w) (EXPORT_COUNT w) (EXPORT_FAILS w)
                (EXPORT_LINES w) (clock w) (ticks w) (upstream w)
                ((base_url, url) :: client_calls w)).

End Handler.

Notation "'let!' x ':=' m 'in' k" := (bind m (λ x, k))
  (at level 10, x name, m at level 100, k at level 200,
   format "'[' 'let!'  x  ':='  m  'in' ']' '/' k") : stdpp_scope.
Notation "'let!' ' p ':=' m 'in' k" := (bind m (λ x, match x with p => k end))
  (at level 10, p pattern, m at level 100, k at level 200,
   format "'[' 'let!'  ' p  ':='  m  'in' ']' '/' k") : stdpp_scope.

(** ** The program *)

Section Program.
Context `{Python}.

(** [float(s)] on a [str] *)
Definition float (s : string) : result pyfloat :=
  match float_of_str s with
  | Some x => inr x
  | None =>
      inl (ValueError ("could not convert string to float: " +:+ str_repr s))
  end.

(** [str(exc)] *)
Definition str_exn (exc : exn) : string :=
  match exc with
  | ClientError msg | JSONDecodeError msg | ValueError msg
  | TypeError msg | AttributeError msg | OtherError _ msg => msg
  | KeyError key => str_repr key
  end.

(** The truth value of a [str | None]: [None] and the empty text are
    false. *)
Definition truthy (s : option string) : bool :=
  match s with
  | None | Some EmptyString => false
  | Some _ => true
  end.

(** [make_url] *)
Definition make_url (query : MultiMapping) : M string :=
  let url := "/api/v1/export?" in
  let! start :=
    if contains query "last" then
      let! now := time in
      let! last := lift (getone query "last") in
      let! seconds := lift (float last) in
      ret (Some (float_str (float_sub now seconds)))
    else ret (get query "start") in
  let end_ := get query "end" in
  let url := if truthy start then url +:+ "start=" +:+ default "" start +:+ "&"
             else url in
  let url := if truthy end_ then url +:+ "end=" +:+ default "" end_ +:+ "&"
             else url in
  if contains query "match[]" then
    let! selector := lift (getone query "match[]") in
    ret (url +:+ "match[]=" +:+ selector)
  else ret (url +:+ "match[]={__name__!=''}").

(** What lines 105 to 109 append for the parameter [name]: [name=v&] when
    its value [v] is true, nothing otherwise. *)
Definition param (name : string) (v : option string) : string :=
  if truthy v then name +:+ "=" +:+ default "" v +:+ "&" else "".

(** What lines 111 to 115 put after [match[]=]. *)
Definition selector (query : MultiMapping) : string :=
  default "{__name__!=''}" (get query "match[]").

(** The labels of one exposition line: [k="v"] for every item left in
    [metric], separated by commas. *)
Definition render_labels (metric : dict) : string :=
  join "," (map (λ kv, kv.1 +:+ "=" +:+ dq +:+ py_str kv.2 +:+ dq) metric).

(** The f-string of line 155: one exposition line, in which a value that
    is [None] is replaced by [0]. *)
Definition exposition_line (metric_name : value) (metric : dict)
    (sample timestamp : value) : string :=
  let labels := render_labels metric in
  py_str metric_name +:+ "{" +:+ labels +:+ "} "
    +:+ py_str (match sample with JNull => JInt 0 | _ => sample end)
    +:+ " " +:+ py_str timestamp +:+ nl.

(** The inner loop of the handler, lines 152 to 155: one exposition line
    appended to [body] for every pair of [zip(values, timestamps)]. *)
Definition render_samples (metric_name : value) (metric : dict)
    (pairs : list (value * value)) (body : string) : string :=
  fold_left
    (λ body pair,
       body +:+ exposition_line metric_name metric pair.1 pair.2)
    pairs body.

(** The body of the outer loop, lines 143 to 155, for one line of the
    upstream response. *)
Definition convert_line (line : string) (body : string) : result string :=
  let? json_metric := loads line in
  let? metric := getitem json_metric "metric" in
  let? values := getitem json_metric "values" in
  let? timestamps := getitem json_metric "timestamps" in
  let? '(metric_name, metric) := pop metric "__name__" in
  let? pairs := py_zip values timestamps in
  inr (render_samples metric_name metric pairs body).

(** The outer loop, lines 142 to 155. *)
Fixpoint convert_lines (lines : list string) (body : string)
  : result string :=
  match lines with
  | [] => inr body
  | line :: lines' =>
      let? body := convert_line line body in
      convert_lines lines' body
  end.

(** The body of the [try], lines 136 to 155: the rendered text and the
    lines of the upstream response. *)
Definition fetch_and_convert (target : string) (request : Request)
    (url : string) : M (string * list string) :=
  let! text := session_get target (headers request) url in
  let lines := splitlines text in
  let! body := lift (convert_lines lines "") in
  ret (body, lines).

(** The classes of [except (ClientError, JSONDecodeError, ValueError)]. *)
Definition caught (exc : exn) : bool :=
  match exc with
  | ClientError _ | JSONDecodeError _ | ValueError _ => true
  | _ => false
  end.

(** [handle_export].  The first response has a [bytes] body; the other two
    take a [str], whose encoding can raise: in the [except] clause after
    the failure was counted, at line 170 after the three instruments were
    updated, and in both places outside of any [try]. *)
Definition handle_export (request : Request) : M Response :=
  if negb (contains (query request) "target") then
    ret (mkResponse BAD_REQUEST "Missing 'target' query field" "text/plain")
  else
    let! export_start := time in
    let! target := lift (getone (query request) "target") in
    let! url := make_url (query request) in
    let! outcome := try (fetch_and_convert target request url) in
    match outcome with
    | inl exc =>
        if caught exc then
          let! failed := lift (getone (query request) "target") in
          let! _ := EXPORT_FAILS_inc failed in
          lift (text_response BAD_REQUEST (str_exn exc))
        else raise exc
    | inr (body, lines) =>
        let! now := time in
        let export_duration := float_sub now export_start in
        let! _ := DURATION_METRIC_set target export_duration in
        let! _ := EXPORT_COUNT_inc target in
        let! _ := EXPORT_LINES_inc target (length lines) in
        lift (text_response OK body)
    end.

End Program.

(** ** A reference runtime *)

(** [json.loads] on a [str], after CPython's [json.decoder] and its scanner
    (strict mode, default hooks).  Positions count characters, as in the
    messages of [JSONDecodeError].  The interpreter's limits (recursion
    depth, digits of an integer) are not part of it. *)
Module Decoder.
Section Decoder.
Context {F : Type}.
(** [float] on the text of a number or of a constant *)
Variable parse_float : string → result F.

Local Open Scope char_scope.

(** Why decoding stops: [JSONDecodeError(msg, doc, pos)], or an exception
    of a conversion. *)
Inductive failure : Type :=
  | Syntax (msg : string) (pos : nat)
  | Conversion (exc : exn).

(** The value scanned, the text left and its position. *)
Definition scan (A : Type) : Type := (failure + A * string * nat)%type.

Definition is_whitespace (c : ascii) : bool :=
  match c with
  | " " | "009" | "010" | "013" => true
  | _ => false
  end.

Definition is_digit (c : ascii) : bool :=
  let n := nat_of_ascii c in (48 <=? n)%nat && (n <=? 57)%nat.

Fixpoint skip_whitespace (s : string) (pos : nat) : string * nat :=
  match s with
  | String c s' =>
      if is_whitespace c then skip_whitespace s' (S pos) else (s, pos)
  | EmptyString => (s, pos)
  end.

(** The position after the byte [c] of a character at [pos]. *)
Definition advance (c : ascii) (pos : nat) : nat :=
  if is_continuation c then pos else S pos.

Definition hex_digit (c : ascii) : option N :=
  let n := N_of_ascii c in
  if (48 <=? n)%N && (n <=? 57)%N then Some (n - 48)%N
  else if (97 <=? n)%N && (n <=? 102)%N then Some (n - 87)%N
  else if (65 <=? n)%N && (n <=? 70)%N then Some (n - 55)%N
  else None.

(** The four hexadecimal digits after [\u]; the scanner also wants a
    character after them. *)
Definition decode_uXXXX (s : string) : option (N * string) :=
  match s with
  | String a (String b (String c (String d (String e rest)))) =>
      match hex_digit a, hex_digit b, hex_digit c, hex_digit d with
      | Some x3, Some x2, Some x1, Some x0 =>
          Some ((((x3 * 16 + x2) * 16 + x1) * 16 + x0)%N, String e rest)
      | _, _, _, _ => None
      end
  | _ => None
  end.

Definition byte (n : N) : string := String (ascii_of_N n) "".

(** [chr(n)] in UTF-8 (a lone surrogate takes the three-byte form). *)
Definition chr (n : N) : string :=
  if (n <? 128)%N then byte n
  else if (n <? 2048)%N then
    byte (192 + n / 64) +:+ byte (128 + n mod 64)
  else if (n <? 65536)%N then
    byte (224 + n / 4096) +:+ byte (128 + (n / 64) mod 64)
    +:+ byte (128 + n mod 64)
  else
    byte (240 + n / 262144) +:+ byte (128 + (n / 4096) mod 64)
    +:+ byte (128 + (n / 64) mod 64) +:+ byte (128 + n mod 64).

(** The low surrogate of an escaped pair, when [s] starts with one. *)
Definition low_surrogate (s : string) : option (N * string) :=
  match s with
  | String "\" (String "u" s') =>
      match decode_uXXXX s' with
      | Some (lo, rest) =>
          if (56320 <=? lo)%N && (lo <=? 57343)%N then Some (lo, rest)
          else None
      | None => None
      end
  | _ => None
  end.

Definition escape (c : ascii) : option ascii :=
  match c with
  | "034" => Some "034"
  | "\" => Some "\"
  | "/" => Some "/"
  | "b" => Some "008"
  | "f" => Some "012"
  | "n" => Some "010"
  | "r" => Some "013"
  | "t" => Some "009"
  | _ => None
  end.

(** The scanner of a string, entered after the opening quote: [pos] is the
    position of [s] and [begin] that of the opening quote. *)
Fixpoint scanstring (fuel : nat) (s : string) (pos begin : nat)
    (acc : string) : scan string :=
  match fuel, s with
  | O, _ | _, EmptyString =>
      inl (Syntax "Unterminated string starting at" begin)
  | S fuel, String c s' =>
      match c with
      | "034" => inr (acc, s', S pos)
      | "\" =>
          match s' with
          | EmptyString =>
              inl (Syntax "Unterminated string starting at" begin)
          | String "u" s'' =>
              match decode_uXXXX s'' with
              | None => inl (Syntax "Invalid \uXXXX escape" (S pos))
              | Some (uni, rest) =>
                  let pair :=
                    if (55296 <=? uni)%N && (uni <=? 56319)%N
                    then low_surrogate rest else None in
                  match pair with
                  | Some (uni2, rest2) =>
                      scanstring fuel rest2 (pos + 12) begin
                        (acc +:+ chr (65536 + (uni - 55296) * 1024
                                      + (uni2 - 56320)))
                  | None =>
                      scanstring fuel rest (pos + 6) begin (acc +:+ chr uni)
                  end
              end
          | String esc s'' =>
              match escape esc with
              | Some char =>
                  scanstring fuel s'' (pos + 2) begin (acc +:+ String char "")
              | None => inl (Syntax "Invalid \escape" pos)
              end
          end
      | _ =>
          if (nat_of_ascii c <? 32)%nat
          then inl (Syntax "Invalid control character at" pos)
          else scanstring fuel s' (advance c pos) begin (acc +:+ String c "")
      end
  end.

(** The longest prefix of digits, and what follows it. *)
Fixpoint digits (s : string) : string * string :=
  match s with
  | String c s' =>
      if is_digit c then let (ds, rest) := digits s' in (String c ds, rest)
      else (EmptyString, s)
  | EmptyString => (EmptyString, s)
  end.

(** [int] on a text of digits. *)
Definition int_of_digits (ds : string) : Z :=
  fold_left (λ n c, n * 10 + Z.of_nat (nat_of_ascii c) - 48)%Z
            (String.list_ascii_of_string ds) 0%Z.

(** The integer part of a number (an optional minus, then either 0 or a
    digit from 1 to 9 with the digits after it): its sign, its digits and
    what follows. *)
Definition integer_part (s : string) : option (bool * string * string) :=
  let (negative, s1) :=
    match s with
    | String "-" s' => (true, s')
    | _ => (false, s)
    end in
  match s1 with
  | String c s2 =>
      if Ascii.eqb c "0" then Some (negative, "0"%string, s2)
      else if is_digit c then
        let (ds, rest) := digits s2 in Some (negative, String c ds, rest)
      else None
  | EmptyString => None
  end.

(** The fraction (a dot and at least one digit), when there is one. *)
Definition fraction_part (s : string) : string * string :=
  match s with
  | String "." s' =>
      match digits s' with
      | (EmptyString, _) => (""%string, s)
      | (ds, rest) => (String "." ds, rest)
      end
  | _ => (""%string, s)
  end.

(** The exponent (e or E, an optional sign and at least one digit), when
    there is one. *)
Definition exponent_part (s : string) : string * string :=
  match s with
  | String e s' =>
      if Ascii.eqb e "e" || Ascii.eqb e "E" then
        let (sign, s1) :=
          match s' with
          | String "-" s1 => ("-"%string, s1)
          | String "+" s1 => ("+"%string, s1)
          | _ => (""%string, s')
          end in
        match digits s1 with
        | (EmptyString, _) => (""%string, s)
        | (ds, rest) => (String e (sign +:+ ds), rest)
        end
      else (""%string, s)
  | EmptyString => (""%string, s)
  end.

(** A number: an [int] when it has neither fraction nor exponent, a
    [float] otherwise. *)
Definition match_number (s : string) (pos : nat) : scan (json F) :=
  match integer_part s with
  | None => inl (Syntax "Expecting value" pos)
  | Some (negative, ds, s1) =>
      let integer := ((if negative then "-" else "") +:+ ds)%string in
      let (frac, s2) := fraction_part s1 in
      let (exp, s3) := exponent_part s2 in
      let numstr := integer +:+ frac +:+ exp in
      let pos' := pos + String.length numstr in
      match frac, exp with
      | EmptyString, EmptyString =>
          let n := int_of_digits ds in
          inr (JInt (if negative then - n else n)%Z, s3, pos')
      | _, _ =>
          match parse_float numstr with
          | inr x => inr (JFloat x, s3, pos')
          | inl exc => inl (Conversion exc)
          end
      end
  end.

(** [s] without its prefix [p], when [p] is a prefix of [s]. *)
Fixpoint strip_prefix (p s : string) : option string :=
  match p, s with
  | EmptyString, _ => Some s
  | String a p', String b s' =>
      if Ascii.eqb a b then strip_prefix p' s' else None
  | String _ _, EmptyString => None
  end.

(** One of the constants [NaN], [Infinity], [-Infinity], which the decoder
    turns into a float. *)
Definition constant (text : string) (rest : string) (pos : nat)
  : scan (json F) :=
  match parse_float text with
  | inr x => inr (JFloat x, rest, pos)
  | inl exc => inl (Conversion exc)
  end.

(** [d[key] = v] on the items of a [dict]: a key already there keeps its
    place. *)
Fixpoint dict_set (d : list (string * json F)) (key : string) (v : json F)
  : list (string * json F) :=
  match d with
  | [] => [(key, v)]
  | (k, v') :: d' =>
      if String.eqb k key then (k, v) :: d' else (k, v') :: dict_set d' key v
  end.

(** The scanner of one JSON term at [pos], and the loops over the members
    of an object and the elements of an array, entered at the first key
    and the first element. *)
Fixpoint scan_once (fuel : nat) (s : string) (pos : nat) {struct fuel}
  : scan (json F) :=
  match fuel with
  | O => inl (Conversion (OtherError "RecursionError"
                            "maximum recursion depth exceeded"))
  | S fuel =>
      match s with
      | EmptyString => inl (Syntax "Expecting value" pos)
      | String "034" s' =>
          match scanstring (String.length s') s' (S pos) pos "" with
          | inr (text, rest, pos') => inr (JString text, rest, pos')
          | inl f => inl f
          end
      | String "{" s' =>
          match skip_whitespace s' (S pos) with
          | (String "}" rest, pos') => inr (JObject [], rest, S pos')
          | (s1, pos1) => parse_object fuel s1 pos1 []
          end
      | String "[" s' =>
          match skip_whitespace s' (S pos) with
          | (String "]" rest, pos') => inr (JArray [], rest, S pos')
          | (s1, pos1) => parse_array fuel s1 pos1 []
          end
      | _ =>
          match strip_prefix "null" s, strip_prefix "true" s,
                strip_prefix "false" s, strip_prefix "NaN" s,
                strip_prefix "Infinity" s, strip_prefix "-Infinity" s with
          | Some rest, _, _, _, _, _ => inr (JNull, rest, pos + 4)
          | _, Some rest, _, _, _, _ => inr (JBool true, rest, pos + 4)
          | _, _, Some rest, _, _, _ => inr (JBool false, rest, pos + 5)
          | _, _, _, Some rest, _, _ => constant "nan" rest (pos + 3)
          | _, _, _, _, Some rest, _ => constant "inf" rest (pos + 8)
          | _, _, _, _, _, Some rest => constant "-inf" rest (pos + 9)
          | _, _, _, _, _, _ => match_number s pos
          end
      end
  end
with parse_object (fuel : nat) (s : string) (pos : nat)
    (d : list (string * json F)) {struct fuel} : scan (json F) :=
  match fuel with
  | O => inl (Conversion (OtherError "RecursionError"
                            "maximum recursion depth exceeded"))
  | S fuel =>
      match s with
      | String "034" s1 =>
          match scanstring (String.length s1) s1 (S pos) pos "" with
          | inl f => inl f
          | inr (key, s2, pos2) =>
              match skip_whitespace s2 pos2 with
              | (String ":" s3, pos3) =>
                  let (s4, pos4) := skip_whitespace s3 (S pos3) in
                  match scan_once fuel s4 pos4 with
                  | inl f => inl f
                  | inr (v, s5, pos5) =>
                      let d := dict_set d key v in
                      match skip_whitespace s5 pos5 with
                      | (String "}" rest, pos6) =>
                          inr (JObject d, rest, S pos6)
                      | (String "," s6, pos6) =>
                          let (s7, pos7) := skip_whitespace s6 (S pos6) in
                          parse_object fuel s7 pos7 d
                      | (_, pos6) =>
                          inl (Syntax "Expecting ',' delimiter" pos6)
                      end
                  end
              | (_, pos3) => inl (Syntax "Expecting ':' delimiter" pos3)
              end
          end
      | _ =>
          inl (Syntax "Expecting property name enclosed in double quotes"
                      pos)
      end
  end
with parse_array (fuel : nat) (s : string) (pos : nat)
    (items : list (json F)) {struct fuel} : scan (json F) :=
  match fuel with
  | O => inl (Conversion (OtherError "RecursionError"
                            "maximum recursion depth exceeded"))
  | S fuel =>
      match scan_once fuel s pos with
      | inl f => inl f
      | inr (v, s1, pos1) =>
          let items := items ++ [v] in
          match skip_whitespace s1 pos1 with
          | (String "]" rest, pos2) => inr (JArray items, rest, S pos2)
          | (String "," s2, pos2) =>
              let (s3, pos3) := skip_whitespace s2 (S pos2) in
              parse_array fuel s3 pos3 items
          | (_, pos2) => inl (Syntax "Expecting ',' delimiter" pos2)
          end
      end
  end.

(** Line and column of the character at [pos] of [doc], both from 1. *)
Fixpoint line_column (doc : string) (pos lineno colno : nat) : nat * nat :=
  match pos, doc with
  | O, _ | _, EmptyString => (lineno, colno)
  | S pos', String c doc' =>
      if Ascii.eqb c LF then line_column doc' pos' (S lineno) 1
      else if is_continuation c then line_column doc' pos lineno colno
      else line_column doc' pos' lineno (S colno)
  end.

(** [str(JSONDecodeError(msg, doc, pos))] *)
Definition errmsg (msg : string) (doc : string) (pos : nat) : string :=
  let (lineno, colno) := line_column doc pos 1 1 in
  msg +:+ ": line " +:+ pretty lineno +:+ " column " +:+ pretty colno
      +:+ " (char " +:+ pretty pos +:+ ")".

(** [json.loads(doc)] *)
Definition loads (doc : string) : result (json F) :=
  match strip_prefix (chr 65279) doc with
  | Some _ =>
      inl (JSONDecodeError
             (errmsg "Unexpected UTF-8 BOM (decode using utf-8-sig)" doc 0))
  | None =>
      let (s, pos) := skip_whitespace doc 0 in
      match scan_once (2 * String.length doc + 2) s pos with
      | inl (Syntax msg at_) => inl (JSONDecodeError (errmsg msg doc at_))
      | inl (Conversion exc) => inl exc
      | inr (obj, rest, end_) =>
          match skip_whitespace rest end_ with
          | (EmptyString, _) => inr obj
          | (_, end_) => inl (JSONDecodeError (errmsg "Extra data" doc end_))
          end
      end
  end.
End Decoder.
End Decoder.

(** The rest of the reference runtime.  Its floats are the whole numbers
    (exact in binary64 below 2^53, and shown by Python as the numeral followed
    by [.0] below 10^16), read from plain decimal numerals; [repr] of a text is
    exact on ASCII.  On such inputs it computes what Python computes; any
    other numeral is refused by its [float]. *)
Module Reference.

Local Open Scope char_scope.

(** [float(s)] on an optional sign followed by decimal digits. *)
Definition float_of_str (s : string) : option Z :=
  let (negative, ds) :=
    match s with
    | String "-" s' => (true, s')
    | String "+" s' => (false, s')
    | _ => (false, s)
    end in
  match Decoder.digits ds with
  | (String _ _, EmptyString) =>
      let n := Decoder.int_of_digits ds in
      Some (if negative then - n else n)%Z
  | _ => None
  end.

Definition float_str (x : Z) : string := pretty x +:+ ".0".

Definition contains_char (c : ascii) (s : string) : bool :=
  existsb (Ascii.eqb c) (String.list_ascii_of_string s).

Definition hex_char (n : nat) : ascii :=
  ascii_of_nat (if (n <? 10)%nat then 48 + n else 87 + n).

(** One character of [repr(s)] between quotes [quote]. *)
Definition repr_char (quote c : ascii) : string :=
  let n := nat_of_ascii c in
  if Ascii.eqb c "\" || Ascii.eqb c quote then String "\" (String c "")
  else if Ascii.eqb c "009" then "\t"%string
  else if Ascii.eqb c "010" then "\n"%string
  else if Ascii.eqb c "013" then "\r"%string
  else if (n <? 32)%nat || (n =? 127)%nat then
    String "\" (String "x" (String (hex_char (n / 16))
                                   (String (hex_char (n mod 16)) "")))
  else String c "".

(** [repr(s)]: double quotes when [s] has a single quote and no double
    quote, single quotes otherwise. *)
Definition str_repr (s : string) : string :=
  let quote :=
    if contains_char "'" s && negb (contains_char dquote s) then dquote
    else "'" in
  String quote
    (String.concat "" (map (repr_char quote) (String.list_ascii_of_string s))
     +:+ String quote "").

Definition parse_float (s : string) : result Z :=
  match float_of_str s with
  | Some x => inr x
  | None =>
      inl (ValueError ("could not convert string to float: " +:+ str_repr s))
  end.

End Reference.

Definition reference : Python.
Proof.
  refine {| pyfloat := Z;
            float_of_str := Reference.float_of_str;
            float_sub := Z.sub;
            float_str := Reference.float_str;
            float_negative := λ x, (x <? 0)%Z;
            float_le := Z.leb;
            str_repr := Reference.str_repr;
            loads := Decoder.loads Reference.parse_float |}.
  - intros x. unfold Reference.float_str.
    destruct (pretty x); discriminate.
  - intros x y Hle. apply Z.leb_le in Hle. apply Z.ltb_ge. lia.
Defined.

(** ** Worlds and requests to run the handler on *)

Module Example.

(** A fresh process: no label value used yet, a clock that will show
    [times] (and 0 afterwards), an upstream store that answers every GET
    with [reply]. *)
Definition world (times : list Z) (reply : result string) : @World reference :=
  @mkWorld reference ∅ ∅ ∅ ∅ (λ n, nth n times 0%Z) 0 (λ _ _ _, reply) [].

Definition request (query : MultiMapping) : Request :=
  mkRequest query [("Accept", "*/*")].

Definition vm : string := "http://vm:8428".

(** The export of everything from [vm], the store answering with
    [reply]; the clock shows 100, then 101. *)
Definition export (reply : result string) : result Response * World :=
  @handle_export reference (request [("target", vm)])
                 (world [100; 101]%Z reply).

(** The record of the specification's round-trip example. *)
Definition up_record : string :=
  qq "{`metric`:{`__name__`:`up`,`job`:`x`},`values`:[1,null],`timestamps`:[100,200]}".

(** A record with three values and two timestamps. *)
Definition uneven_record : string :=
  qq "{`metric`:{`__name__`:`up`},`values`:[1,2,3],`timestamps`:[100,200]}".

(** A record without [metric]. *)
Definition no_metric_record : string :=
  qq "{`values`:[1],`timestamps`:[100]}".

(** A record without [values], and one without [timestamps]. *)
Definition no_values_record : string :=
  qq "{`metric`:{`__name__`:`up`},`timestamps`:[100]}".

Definition no_timestamps_record : string :=
  qq "{`metric`:{`__name__`:`up`},`values`:[1]}".

(** A record whose label set has no [__name__]. *)
Definition no_name_record : string :=
  qq "{`metric`:{`job`:`x`},`values`:[1],`timestamps`:[100]}".

(** A record whose name is a lone surrogate, written with an escape. *)
Definition surrogate_record : string :=
  qq "{`metric`:{`__name__`:`\ud83d`},`values`:[1],`timestamps`:[100]}".

End Example.

(** * Properties *)

(** ** Text and mappings *)

Lemma append_cons (c : ascii) (s t : string) :
  String c s +:+ t = String c (s +:+ t).
Proof. reflexivity. Qed.

Lemma append_assoc (s t u : string) : (s +:+ t) +:+ u = s +:+ (t +:+ u).
Proof.
  induction s as [|c s IH]; [reflexivity|].
  rewrite !append_cons. by rewrite IH.
Qed.

Lemma append_empty_r (s : string) : s +:+ "" = s.
Proof.
  induction s as [|c s IH]; [reflexivity|].
  rewrite append_cons. by rewrite IH.
Qed.

Lemma prefix_append (s t : string) : String.prefix s (s +:+ t) = true.
Proof.
  induction s as [|c s IH]; [by destruct t|].
  rewrite append_cons. cbn. by destruct (ascii_dec c c).
Qed.

Lemma surrogates_not_allowed_none (cs : list string) (pos : nat) :
  forallb (λ c, negb (is_surrogate c)) cs = true →
  surrogates_not_allowed cs pos = None.
Proof.
  revert pos. induction cs as [|c cs IH]; intros pos; [done|].
  cbn. destruct (is_surrogate c); [done|]. cbn. apply IH.
Qed.

Lemma surrogates_not_allowed_some (cs : list string) (pos : nat) :
  forallb (λ c, negb (is_surrogate c)) cs = false →
  ∃ msg, surrogates_not_allowed cs pos = Some msg.
Proof.
  revert pos. induction cs as [|c cs IH]; intros pos; [done|].
  cbn. destruct (is_surrogate c); [by eauto|]. cbn. apply IH.
Qed.

(** A text without surrogate makes a response. *)
Lemma text_response_encodable (status : nat) (text : string) :
  encodable text = true →
  text_response status text = inr (mkResponse status text "text/plain").
Proof.
  intros Hok. unfold text_response, encode.
  by rewrite (surrogates_not_allowed_none _ _ Hok).
Qed.

(** A response built from a text is that text with the status asked for. *)
Lemma text_response_inr (status : nat) (text : string) (r : Response) :
  text_response status text = inr r →
  r = mkResponse status text "text/plain".
Proof.
  unfold text_response. destruct (encode text); [done|]. by intros [= <-].
Qed.

Lemma contains_get (query : MultiMapping) (key : string) :
  contains query key = match get query key with Some _ => true | None => false end.
Proof.
  induction query as [|[k v] query IH]; [reflexivity|].
  cbn. destruct (String.eqb k key); [reflexivity|exact IH].
Qed.

Lemma get_without_eq (key : string) (query : MultiMapping) :
  get (without key query) key = None.
Proof.
  induction query as [|[k v] query IH]; [reflexivity|].
  cbn. destruct (String.eqb k key) eqn:Hk; [exact IH|].
  cbn. by rewrite Hk.
Qed.

Lemma get_without_ne (key key' : string) (query : MultiMapping) :
  key ≠ key' → get (without key query) key' = get query key'.
Proof.
  intros Hne. induction query as [|[k v] query IH]; [reflexivity|].
  cbn. destruct (String.eqb k key) eqn:Hk.
  - apply String.eqb_eq in Hk. subst k.
    apply String.eqb_neq in Hne. by rewrite Hne.
  - cbn. by rewrite IH.
Qed.

Lemma count_inc (target : string) (amount : nat) (counter : gmap string nat) :
  count (inc target amount counter) target = count counter target + amount.
Proof. unfold count, inc. by rewrite lookup_insert_eq. Qed.

Lemma count_inc_ne (target other : string) (amount : nat)
    (counter : gmap string nat) :
  target ≠ other → count (inc target amount counter) other = count counter other.
Proof. intros Hne. unfold count, inc. by rewrite lookup_insert_ne. Qed.

(** ** The query translator *)

Section Translator.
Context `{Python}.

(** [make_url] in one equation: the parts of the path follow the order
    start, end, match[]; with [last] the clock is read once, before the
    value of [last] is converted. *)
Lemma make_url_eq (query : MultiMapping) (w : World) :
  make_url query w =
    match get query "last" with
    | None =>
        (inr ("/api/v1/export?" +:+ param "start" (get query "start")
              +:+ param "end" (get query "end")
              +:+ "match[]=" +:+ selector query), w)
    | Some last =>
        match float_of_str last with
        | Some seconds =>
            (inr ("/api/v1/export?"
                  +:+ param "start"
                        (Some (float_str
                                 (float_sub (clock w (ticks w)) seconds)))
                  +:+ param "end" (get query "end")
                  +:+ "match[]=" +:+ selector query), (time w).2)
        | None =>
            (inl (ValueError ("could not convert string to float: "
                              +:+ str_repr last)), (time w).2)
        end
    end.
Proof.
  unfold make_url, selector. rewrite !contains_get.
  unfold bind, lift, ret, getone, float.
  destruct (get query "last") as [last|] eqn:Hlast.
  - cbn [time snd fst]. destruct (float_of_str last) as [seconds|]; [|done].
    unfold param.
    destruct (truthy (Some _)), (truthy (get query "end"));
      destruct (get query "match[]") as [m|]; cbn [default];
      by rewrite ?append_assoc, ?append_empty_r.
  - unfold param.
    destruct (truthy (get query "start")), (truthy (get query "end"));
      destruct (get query "match[]") as [m|]; cbn [default];
      by rewrite ?append_assoc, ?append_empty_r.
Qed.


Lemma param_float (name : string) (x : pyfloat) :
  param name (Some (float_str x)) = name +:+ "=" +:+ float_str x +:+ "&".
Proof.
  unfold param, truthy. pose proof (float_str_nonempty x) as Hx.
  by destruct (float_str x).
Qed.

(** The part of a parameter, by the cases of its value. *)
Lemma param_eq (name : string) (v : option string) :
  param name v = match v with
                 | None | Some "" => ""
                 | Some text => name +:+ "=" +:+ text +:+ "&"
                 end.
Proof. by destruct v as [[|c text]|]. Qed.

(** Leaving [key] out of the query changes nothing for the other
    parameters. *)
Lemma make_url_without_start (query : MultiMapping) (w : World) :
  is_Some (get query "last") ∨ param "start" (get query "start") = "" →
  make_url (without "start" query) w = make_url query w.
Proof.
  intros Hcase. rewrite !make_url_eq. unfold selector.
  rewrite get_without_eq, !get_without_ne by done.
  destruct Hcase as [[last ->]|Hempty]; [done|].
  by rewrite Hempty.
Qed.

Lemma make_url_without_end (query : MultiMapping) (w : World) :
  param "end" (get query "end") = "" →
  make_url (without "end" query) w = make_url query w.
Proof.
  intros Hempty. rewrite !make_url_eq. unfold selector.
  rewrite get_without_eq, !get_without_ne by done.
  by rewrite Hempty.
Qed.

(** C2 (amended).  [make_url] returns a relative path that begins with
    [/api/v1/export?] for every query mapping in which [last] is absent or
    has a (first) value that [float] accepts; when [float] refuses the
    value of [last], [make_url] returns nothing and raises the
    [ValueError] of the conversion. *)
Theorem make_url_returns_unless_last_is_no_float
    (query : MultiMapping) (w : World) :
  ((∀ last, get query "last" = Some last → is_Some (float_of_str last)) →
   ∃ rest w', make_url query w = (inr ("/api/v1/export?" +:+ rest), w'))
  ∧ (∀ last, get query "last" = Some last → float_of_str last = None →
     ∃ w', make_url query w =
             (inl (ValueError ("could not convert string to float: "
                               +:+ str_repr last)), w')).
Proof.
  split.
  - intros Hlast. rewrite make_url_eq.
    destruct (get query "last") as [last|]; [|by eauto].
    destruct (Hlast last eq_refl) as [seconds ->]. by eauto.
  - intros last Hlast Hfloat. rewrite make_url_eq, Hlast, Hfloat. by eauto.
Qed.


(** C9.  The built query is [/api/v1/export?], then the start part, then
    the end part, then [match[]=] followed by the first value of [match[]]
    as it was sent, or by the default selector [{__name__!=''}] when the
    query has no [match[]]; nothing comes after it.  The start part is
    [start=], the text of the float (clock reading minus [float(L)]) and
    [&] under [last=L]; without [last] it is [start=], the caller's [start]
    and [&], or nothing when the caller's [start] is absent or empty.  The
    end part is [end=], the caller's [end] and [&], or nothing when [end]
    is absent or empty.  So the order of the parameters is start, end,
    match[], whichever of the first two are there. *)
Theorem match_selector_closes_the_query (query : MultiMapping) (w : World) :
  (∀ last, get query "last" = Some last → is_Some (float_of_str last)) →
  ∃ start_part end_part w',
    make_url query w =
      (inr ("/api/v1/export?" +:+ start_part +:+ end_part +:+ "match[]="
            +:+ match get query "match[]" with
                | Some selector => selector
                | None => "{__name__!=''}"
                end), w')
    ∧ (∀ last seconds,
         get query "last" = Some last → float_of_str last = Some seconds →
         start_part =
           "start=" +:+ float_str (float_sub (clock w (ticks w)) seconds)
           +:+ "&")
    ∧ (get query "last" = None →
       start_part = match get query "start" with
                    | None | Some "" => ""
                    | Some start => "start=" +:+ start +:+ "&"
                    end)
    ∧ end_part = match get query "end" with
                 | None | Some "" => ""
                 | Some end_ => "end=" +:+ end_ +:+ "&"
                 end.
Proof.
  intros Hlast. rewrite make_url_eq.
  destruct (get query "last") as [last|].
  - destruct (Hlast last eq_refl) as [seconds Hfloat]. rewrite Hfloat.
    eexists _, _, _. split; [reflexivity|]. split; [|split].
    + intros ? seconds' [= <-]. rewrite Hfloat. intros [= <-].
      apply param_float.
    + done.
    + apply param_eq.
  - eexists _, _, _. split; [reflexivity|]. split; [done|].
    split; [intros _|]; apply param_eq.
Qed.

(** C10.  Without [last], a [start] or an [end] whose (first) value is the
    empty text is left out of the built query entirely.  With an empty
    [start] the query is [/api/v1/export?], the end part ([end=], the
    caller's [end] and [&], or nothing) and [match[]=...]: no [start=] part
    is built.  With an empty [end] it is [/api/v1/export?], the start part
    and [match[]=...]: no [end=] part is built.  And [make_url] returns
    what it returns for the query from which that parameter is absent. *)
Theorem empty_value_is_an_absent_parameter
    (query : MultiMapping) (key : string) (w : World) :
  get query "last" = None →
  key = "start" ∨ key = "end" →
  get query key = Some "" →
  get (without key query) key = None
  ∧ make_url query w = make_url (without key query) w
  ∧ ∃ other_part,
      make_url query w =
        (inr ("/api/v1/export?" +:+ other_part +:+ "match[]="
              +:+ match get query "match[]" with
                  | Some selector => selector
                  | None => "{__name__!=''}"
                  end), w)
      ∧ (key = "start" →
         other_part = match get query "end" with
                      | None | Some "" => ""
                      | Some end_ => "end=" +:+ end_ +:+ "&"
                      end)
      ∧ (key = "end" →
         other_part = match get query "start" with
                      | None | Some "" => ""
                      | Some start => "start=" +:+ start +:+ "&"
                      end).
Proof.
  intros Hlast Hkey Hempty. split; [apply get_without_eq|].
  destruct Hkey as [-> | ->].
  - split.
    + symmetry. apply make_url_without_start. right. by rewrite Hempty.
    + exists (param "end" (get query "end")).
      rewrite make_url_eq, Hlast, Hempty. split; [done|].
      split; [intros _; apply param_eq|done].
  - split.
    + symmetry. apply make_url_without_end. by rewrite Hempty.
    + exists (param "start" (get query "start")).
      rewrite make_url_eq, Hlast, Hempty. split.
      * reflexivity.
      * split; [done|intros _; apply param_eq].
Qed.

End Translator.

(** ** The record converter *)

Lemma concat_empty_cons (x : string) (xs : list string) :
  String.concat "" (x :: xs) = x +:+ String.concat "" xs.
Proof. destruct xs; cbn; [by rewrite append_empty_r|done]. Qed.

Section Converter.
Context `{Python}.

(** The inner loop appends the exposition lines of the pairs, in their
    order, to the text it starts from. *)
Lemma render_samples_concat (metric_name : value) (metric : dict)
    (pairs : list (value * value)) (body : string) :
  render_samples metric_name metric pairs body =
    body +:+ String.concat ""
               ((λ pair, exposition_line metric_name metric pair.1 pair.2)
                  <$> pairs).
Proof.
  unfold render_samples. revert body.
  induction pairs as [|pair pairs IH]; intros body.
  - cbn. by rewrite append_empty_r.
  - cbn [fold_left]. rewrite IH, fmap_cons, concat_empty_cons.
    by rewrite append_assoc.
Qed.

(** A line that decodes to a record of the expected shape is converted
    without an exception. *)
Lemma convert_line_record (line : string) (d m : dict) (name : value)
    (vs ts : list value) (body : string) :
  loads line = inr (JObject d) →
  dict_get d "metric" = Some (JObject m) →
  dict_get d "values" = Some (JArray vs) →
  dict_get d "timestamps" = Some (JArray ts) →
  dict_get m "__name__" = Some name →
  convert_line line body =
    inr (body +:+ String.concat ""
                    ((λ pair, exposition_line name (dict_del m "__name__")
                                              pair.1 pair.2)
                       <$> zip vs ts)).
Proof.
  intros Hloads Hmetric Hvalues Htimestamps Hname.
  unfold convert_line. rewrite Hloads. cbn [rbind getitem].
  rewrite Hmetric, Hvalues, Htimestamps. cbn [rbind pop].
  rewrite Hname. cbn [rbind py_zip iter].
  by rewrite render_samples_concat.
Qed.

(** A record that lacks one of the keys the handler reads raises
    [KeyError] with that key. *)
Lemma convert_line_missing_key (line : string) (d : dict) (body : string) :
  loads line = inr (JObject d) →
  (dict_get d "metric" = None →
   convert_line line body = inl (KeyError "metric"))
  ∧ (∀ metric, dict_get d "metric" = Some metric →
       dict_get d "values" = None →
       convert_line line body = inl (KeyError "values"))
  ∧ (∀ metric values, dict_get d "metric" = Some metric →
       dict_get d "values" = Some values →
       dict_get d "timestamps" = None →
       convert_line line body = inl (KeyError "timestamps"))
  ∧ (∀ m values timestamps, dict_get d "metric" = Some (JObject m) →
       dict_get d "values" = Some values →
       dict_get d "timestamps" = Some timestamps →
       dict_get m "__name__" = None →
       convert_line line body = inl (KeyError "__name__")).
Proof.
  intros Hloads. unfold convert_line. rewrite Hloads. cbn [rbind getitem].
  repeat split.
  - by intros ->.
  - by intros metric -> ->.
  - by intros metric values -> -> ->.
  - intros m values timestamps -> -> ->. cbn [rbind pop]. by intros ->.
Qed.

(** C6.  For a record whose [values] and [timestamps] arrays have any
    lengths, equal or not, the converter raises nothing: it appends one
    exposition line for each position that both arrays have, that is
    min(length of values, length of timestamps) lines, the line at
    position [i] pairing the [i]-th value with the [i]-th timestamp, and
    the loop goes on with the following lines of the response. *)
Theorem uneven_arrays_are_truncated (line : string) (d m : dict)
    (name : value) (vs ts : list value) (body : string) :
  loads line = inr (JObject d) →
  dict_get d "metric" = Some (JObject m) →
  dict_get d "values" = Some (JArray vs) →
  dict_get d "timestamps" = Some (JArray ts) →
  dict_get m "__name__" = Some name →
  ∃ out : list string,
    convert_line line body = inr (body +:+ String.concat "" out)
    ∧ length out = length vs `min` length ts
    ∧ (∀ i v t, vs !! i = Some v → ts !! i = Some t →
         out !! i = Some (exposition_line name (dict_del m "__name__") v t))
    ∧ (∀ lines, convert_lines (line :: lines) body =
                  convert_lines lines (body +:+ String.concat "" out)).
Proof.
  intros Hloads Hmetric Hvalues Htimestamps Hname.
  pose proof (convert_line_record line d m name vs ts body
                Hloads Hmetric Hvalues Htimestamps Hname) as Hline.
  eexists. split; [exact Hline|]. split; [|split].
  - by rewrite length_fmap, length_zip_with.
  - intros i v t Hv Ht.
    by rewrite list_lookup_fmap, lookup_zip_with, Hv, Ht.
  - intros lines. cbn [convert_lines]. by rewrite Hline.
Qed.

End Converter.

(** ** The export handler *)

Section Exporter.
Context `{Python}.

Lemma bind_eq {A B : Type} (m : M A) (k : A → M B) (w : World) :
  bind m k w = match m w with
               | (inl e, w') => (inl e, w')
               | (inr a, w') => k a w'
               end.
Proof. reflexivity. Qed.

(** [make_url] reads the clock and nothing else. *)
Lemma make_url_frame (query : MultiMapping) (w w' : World)
    (r : result string) :
  make_url query w = (r, w') →
  DURATION_METRIC w' = DURATION_METRIC w
  ∧ EXPORT_COUNT w' = EXPORT_COUNT w
  ∧ EXPORT_FAILS w' = EXPORT_FAILS w
  ∧ EXPORT_LINES w' = EXPORT_LINES w
  ∧ clock w' = clock w
  ∧ upstream w' = upstream w
  ∧ client_calls w' = client_calls w
  ∧ ticks w ≤ ticks w'.
Proof.
  rewrite make_url_eq.
  destruct (get query "last") as [last|];
    [destruct (float_of_str last)|]; intros [= <- <-]; cbn;
    repeat split; lia.
Qed.

(** The body of the [try] calls the client once, fails with the exception
    of the client or of the conversion of a line, and returns the rendered text
    and the lines otherwise. *)
Lemma fetch_and_convert_eq (target : string) (request : Request)
    (url : string) (w : World) :
  fetch_and_convert target request url w =
    (match upstream w target (headers request) url with
     | inl exc => inl exc
     | inr text =>
         match convert_lines (splitlines text) "" with
         | inl exc => inl exc
         | inr body => inr (body, splitlines text)
         end
     end,
     (session_get target (headers request) url w).2).
Proof.
  unfold fetch_and_convert. rewrite bind_eq. unfold session_get at 1.
  destruct (upstream w target (headers request) url) as [exc|text]; [done|].
  rewrite bind_eq. unfold lift.
  by destruct (convert_lines (splitlines text) "").
Qed.

(** What the handler does once the target is known and the path is
    built, in terms of the outcome of the [try]. *)
Lemma handle_export_eq (request : Request) (w w1 : World)
    (target url : string) :
  get (query request) "target" = Some target →
  make_url (query request) (time w).2 = (inr url, w1) →
  handle_export request w =
    let w2 := (session_get target (headers request) url w1).2 in
    match (fetch_and_convert target request url w1).1 with
    | inl exc =>
        if caught exc then
          (text_response 400 (str_exn exc), (EXPORT_FAILS_inc target w2).2)
        else (inl exc, w2)
    | inr (body, lines) =>
        (text_response 200 body,
         (EXPORT_LINES_inc target (length lines)
            (EXPORT_COUNT_inc target
               (DURATION_METRIC_set target
                  (float_sub (clock w2 (ticks w2)) (clock w (ticks w)))
                  (time w2).2).2).2).2)
    end.
Proof.
  intros Htarget Hurl. unfold handle_export.
  rewrite contains_get, Htarget. cbn [negb].
  rewrite bind_eq.
  change (time w) with (inr (clock w (ticks w)) : result pyfloat, (time w).2).
  cbn beta iota. rewrite bind_eq. unfold lift at 1, getone at 1.
  rewrite Htarget. cbn beta iota. rewrite bind_eq, Hurl. cbn beta iota.
  rewrite bind_eq. unfold try at 1. rewrite fetch_and_convert_eq.
  cbn [fst snd].
  destruct (upstream w1 target (headers request) url) as [exc|text].
  - destruct (caught exc); [|done].
    rewrite bind_eq. unfold lift at 1, getone at 1. by rewrite Htarget.
  - destruct (convert_lines (splitlines text) "") as [exc|body].
    + destruct (caught exc); [|done].
      rewrite bind_eq. unfold lift at 1, getone at 1. by rewrite Htarget.
    + done.
Qed.

(** C8.  A request without [target] is answered with status 400 and the
    text [Missing 'target' query field], and the world stays as it was: no
    upstream request is issued, no instrument changes and the clock is
    not even read. *)
Theorem missing_target_is_rejected (request : Request) (w : World) :
  contains (query request) "target" = false →
  handle_export request w =
    (inr (mkResponse 400 "Missing 'target' query field" "text/plain"), w).
Proof. intros Hno. unfold handle_export. by rewrite Hno. Qed.


(** X7.  An exception of any other class (a [KeyError], a [TypeError], a
    timeout of the client, ...) raised in the fetch or by the conversion of
    a line leaves the handler as it is: no response is made and no
    instrument changes, the failure counter included. *)
Lemma uncaught_failure_escapes (request : Request)
    (w : World) (target url : string) (exc : exn) :
  get (query request) "target" = Some target →
  (make_url (query request) (time w).2).1 = inr url →
  upstream w target (headers request) url = inl exc
  ∨ (∃ text, upstream w target (headers request) url = inr text
             ∧ convert_lines (splitlines text) "" = inl exc) →
  caught exc = false →
  ∃ w', handle_export request w = (inl exc, w')
        ∧ EXPORT_FAILS w' = EXPORT_FAILS w
        ∧ EXPORT_COUNT w' = EXPORT_COUNT w
        ∧ EXPORT_LINES w' = EXPORT_LINES w
        ∧ DURATION_METRIC w' = DURATION_METRIC w.
Proof.
  intros Htarget Hurl Hfail Hcaught.
  destruct (make_url (query request) (time w).2) as [r w1] eqn:Hmake.
  cbn in Hurl. subst r.
  rewrite (handle_export_eq _ _ _ _ _ Htarget Hmake). cbn zeta.
  rewrite fetch_and_convert_eq. cbn [fst].
  destruct (make_url_frame _ _ _ _ Hmake) as (HD & HC & HF & HL & _ & Hup & _).
  rewrite Hup. cbn [time snd upstream].
  assert (match upstream w target (headers request) url with
          | inl exc => inl exc
          | inr text =>
              match convert_lines (splitlines text) "" with
              | inl exc => inl exc
              | inr body => inr (body, splitlines text)
              end
          end = inl exc) as ->.
  { by destruct Hfail as [->|(text & -> & ->)]. }
  rewrite Hcaught. eexists. split; [reflexivity|].
  cbn. by rewrite HD, HC, HF, HL.
Qed.

(** [make_url] reads the clock once when the query has [last], and not at
    all otherwise. *)
Lemma make_url_ticks (query : MultiMapping) (w : World) :
  ticks (make_url query w).2 =
    if contains query "last" then S (ticks w) else ticks w.
Proof.
  rewrite make_url_eq, contains_get.
  destruct (get query "last") as [last|]; [|done].
  by destruct (float_of_str last).
Qed.

(** C3 (amended).  When the store answers with a text whose lines are all
    converted, and the rendered text can be encoded into a response, the
    response has status 200 and the rendered text as its body, the export
    counter of the target goes up by 1, its sample
    counter by the number of lines of the text, and its duration gauge is
    set to the difference of two readings of the wall clock: the one made
    after the conversion (the second reading of the request, or the third
    when the query has [last]) minus the one made on entry; that value is
    not negative provided the clock did not go back between the two
    readings. *)
Theorem successful_export_updates_the_instruments (request : Request)
    (w : World) (target url text rendered : string) :
  get (query request) "target" = Some target →
  (make_url (query request) (time w).2).1 = inr url →
  upstream w target (headers request) url = inr text →
  convert_lines (splitlines text) "" = inr rendered →
  encodable rendered = true →
  let export_start := clock w (ticks w) in
  let now := clock w (if contains (query request) "last"
                      then S (S (ticks w)) else S (ticks w)) in
  ∃ w', handle_export request w =
          (inr (mkResponse 200 rendered "text/plain"), w')
        ∧ count (EXPORT_COUNT w') target = count (EXPORT_COUNT w) target + 1
        ∧ count (EXPORT_LINES w') target =
            count (EXPORT_LINES w) target + length (splitlines text)
        ∧ DURATION_METRIC w' !! target = Some (float_sub now export_start)
        ∧ (float_le export_start now = true →
           float_negative (float_sub now export_start) = false)
        ∧ EXPORT_COUNT w' = inc target 1 (EXPORT_COUNT w)
        ∧ EXPORT_LINES w' =
            inc target (length (splitlines text)) (EXPORT_LINES w)
        ∧ DURATION_METRIC w' =
            <[target := float_sub now export_start]> (DURATION_METRIC w)
        ∧ EXPORT_FAILS w' = EXPORT_FAILS w.
Proof.
  intros Htarget Hurl Htext Hbody Hencodable.
  pose proof (make_url_ticks (query request) (time w).2) as Hticks.
  destruct (make_url (query request) (time w).2) as [r w1] eqn:Hmake.
  cbn in Hurl, Hticks. subst r.
  rewrite (handle_export_eq _ _ _ _ _ Htarget Hmake). cbn zeta.
  rewrite fetch_and_convert_eq. cbn [fst].
  destruct (make_url_frame _ _ _ _ Hmake)
    as (HD & HC & HF & HL & Hclock & Hup & _).
  rewrite Hup. cbn [time snd upstream]. rewrite Htext, Hbody.
  rewrite (text_response_encodable _ _ Hencodable).
  eexists. split; [reflexivity|].
  cbn. rewrite HD, HC, HF, HL, Hclock, Hticks. cbn.
  rewrite !count_inc, lookup_insert_eq.
  destruct (contains (query request) "last");
    repeat apply conj; done || apply float_sub_le.
Qed.

End Exporter.

(** ** The handler on concrete requests *)

(** C4.  The record of the round-trip example is converted to exactly the
    two lines [up{job="x"} 1 100] and [up{job="x"} 0 200], each ended by a
    newline.  In general, for every runtime and every record of the expected
    shape, the line emitted for a position whose value is [null] shows [0]
    as the value, followed by the timestamp of that position as [str] shows
    it (for an integer, its decimal numeral), without any conversion. *)
Theorem null_is_rendered_as_zero :
  @convert_line reference Example.up_record ""
    = inr (qq "up{job=`x`} 1 100" +:+ nl +:+ qq "up{job=`x`} 0 200" +:+ nl)
  ∧ ∀ (H : Python) (line : string) (d m : dict) (name : value)
      (vs ts : list value) (body : string),
      loads line = inr (JObject d) →
      dict_get d "metric" = Some (JObject m) →
      dict_get d "values" = Some (JArray vs) →
      dict_get d "timestamps" = Some (JArray ts) →
      dict_get m "__name__" = Some name →
      ∃ out : list string,
        convert_line line body = inr (body +:+ String.concat "" out)
        ∧ ∀ i t, vs !! i = Some JNull → ts !! i = Some t →
            out !! i = Some (py_str name +:+ "{"
                             +:+ render_labels (dict_del m "__name__")
                             +:+ "} 0 " +:+ py_str t +:+ nl).
Proof.
  split; [vm_compute; reflexivity|].
  intros H line d m name vs ts body Hloads Hmetric Hvalues Htimestamps Hname.
  eexists. split.
  { exact (convert_line_record line d m name vs ts body
             Hloads Hmetric Hvalues Htimestamps Hname). }
  intros i t Hv Ht. by rewrite list_lookup_fmap, lookup_zip_with, Hv, Ht.
Qed.

(** C1.  The handler on a response whose only line is valid JSON but lacks
    one of [metric], [values], [timestamps] or the [__name__] label: the
    lookup raises [KeyError], which is none of the classes of the [except]
    clause, so the exception leaves the handler, no response with status 400
    is made and the failure counter of the target stays at 0.  A failure of
    the transport, and a line that is not JSON, are answered with status 400
    and counted. *)
Theorem missing_field_is_not_reported_as_a_failure :
  let outcome reply := (Example.export reply).1 in
  let failures reply := count (EXPORT_FAILS (Example.export reply).2) Example.vm in
  (outcome (inr Example.no_metric_record) = inl (KeyError "metric")
   ∧ failures (inr Example.no_metric_record) = 0)
  ∧ (outcome (inr Example.no_values_record) = inl (KeyError "values")
     ∧ failures (inr Example.no_values_record) = 0)
  ∧ (outcome (inr Example.no_timestamps_record) = inl (KeyError "timestamps")
     ∧ failures (inr Example.no_timestamps_record) = 0)
  ∧ (outcome (inr Example.no_name_record) = inl (KeyError "__name__")
     ∧ failures (inr Example.no_name_record) = 0)
  ∧ (outcome (inl (ClientError "Cannot connect to host vm:8428"))
       = inr (mkResponse 400 "Cannot connect to host vm:8428" "text/plain")
     ∧ failures (inl (ClientError "Cannot connect to host vm:8428")) = 1)
  ∧ (outcome (inr "oops")
       = inr (mkResponse 400 "Expecting value: line 1 column 1 (char 0)"
                         "text/plain")
     ∧ failures (inr "oops") = 1).
Proof. cbv zeta. repeat apply conj; vm_compute; reflexivity. Qed.

(** Against C2 as stated: with [last=abc] the translator returns no path;
    the conversion of [abc] raises [ValueError] out of [make_url]. *)
Lemma make_url_raises_on_last_abc :
  (@make_url reference [("last", "abc")] (Example.world [100]%Z (inr ""))).1
    = inl (ValueError "could not convert string to float: 'abc'").
Proof. vm_compute. reflexivity. Qed.

(** Against C3 as stated: the export succeeds, and since the wall clock
    showed 100 on entry and 90 afterwards, the duration gauge of the target
    is set to -10, a negative value. *)
Lemma clock_set_back_makes_the_duration_negative :
  let run := @handle_export reference
               (Example.request [("target", Example.vm)])
               (Example.world [100; 90]%Z (inr Example.up_record)) in
  run.1 = inr (mkResponse 200 (qq "up{job=`x`} 1 100" +:+ nl
                                +:+ qq "up{job=`x`} 0 200" +:+ nl)
                           "text/plain")
  ∧ DURATION_METRIC run.2 !! Example.vm = Some (-10)%Z
  ∧ @float_negative reference (-10)%Z = true
  ∧ @float_le reference 100%Z 90%Z = false
  ∧ count (EXPORT_LINES run.2) Example.vm = 1.
Proof. cbv zeta. repeat apply conj; vm_compute; reflexivity. Qed.



(** ** The theorems at work *)

(** C2 at work: [last=60] is a number, and the path is returned. *)
Lemma make_url_returns_unless_last_is_no_float_witness :
  ∃ rest w',
    @make_url reference [("last", "60")] (Example.world [1000]%Z (inr ""))
      = (inr ("/api/v1/export?" +:+ rest), w').
Proof.
  apply (proj1 (@make_url_returns_unless_last_is_no_float reference
                  [("last", "60")] (Example.world [1000]%Z (inr "")))).
  intros last Hlast. vm_compute in Hlast. injection Hlast as <-.
  vm_compute. eauto.
Defined.


(** C9 at work: a query with [end] sent before [start], [match[]=up] sent
    first and a second [match[]]: the path has start, then end, then the
    first selector. *)
Lemma match_selector_closes_the_query_witness :
  let query := [("match[]", "up"); ("end", "2"); ("start", "1");
                ("match[]", "down")] in
  ∃ start_part end_part w',
    @make_url reference query (Example.world [] (inr "")) =
      (inr ("/api/v1/export?" +:+ start_part +:+ end_part +:+ "match[]=up"),
       w')
    ∧ (∀ last seconds,
         get query "last" = Some last →
         @float_of_str reference last = Some seconds →
         start_part =
           "start=" +:+ @float_str reference (0 - seconds)%Z +:+ "&")
    ∧ (get query "last" = None → start_part = "start=1&")
    ∧ end_part = "end=2&".
Proof.
  cbv zeta.
  apply (@match_selector_closes_the_query reference
           [("match[]", "up"); ("end", "2"); ("start", "1");
            ("match[]", "down")]
           (Example.world [] (inr ""))).
  intros last Hlast. vm_compute in Hlast. discriminate Hlast.
Defined.

(** C10 at work: an empty [start] next to [end=5]; the path is
    [/api/v1/export?end=5&match[]={__name__!=''}]. *)
Lemma empty_value_is_an_absent_parameter_witness :
  let query := [("start", ""); ("end", "5")] in
  let w := Example.world [] (inr "") in
  get (without "start" query) "start" = None
  ∧ @make_url reference query w = make_url (without "start" query) w
  ∧ ∃ other_part,
      @make_url reference query w =
        (inr ("/api/v1/export?" +:+ other_part
              +:+ "match[]={__name__!=''}"), w)
      ∧ ("start" = "start" → other_part = "end=5&")
      ∧ ("start" = "end" → other_part = "").
Proof.
  cbv zeta.
  apply (@empty_value_is_an_absent_parameter reference
           [("start", ""); ("end", "5")] "start" (Example.world [] (inr ""))).
  - vm_compute. reflexivity.
  - left. reflexivity.
  - vm_compute. reflexivity.
Defined.

(** C6 at work: three values and two timestamps give two lines. *)
Lemma uneven_arrays_are_truncated_witness :
  ∃ out : list string,
    @convert_line reference Example.uneven_record "" =
      inr (String.concat "" out)
    ∧ length out = 2
    ∧ out !! 1 = Some ("up{} 2 200" +:+ nl).
Proof.
  destruct (@uneven_arrays_are_truncated reference Example.uneven_record
              [("metric", JObject [("__name__", JString "up")]);
               ("values", JArray [JInt 1; JInt 2; JInt 3]);
               ("timestamps", JArray [JInt 100; JInt 200])]
              [("__name__", JString "up")] (JString "up")
              [JInt 1; JInt 2; JInt 3] [JInt 100; JInt 200] "")
    as (out & Hline & Hlength & Hout & _);
    [vm_compute; reflexivity..|].
  exists out. split; [exact Hline|]. split; [exact Hlength|].
  exact (Hout 1 (JInt 2) (JInt 200) eq_refl eq_refl).
Defined.

(** C4 at work: the second sample of the example record is [null]. *)
Lemma null_is_rendered_as_zero_witness :
  ∃ out : list string,
    @convert_line reference Example.up_record "" = inr (String.concat "" out)
    ∧ out !! 1 = Some (qq "up{job=`x`} 0 200" +:+ nl).
Proof.
  destruct (proj2 null_is_rendered_as_zero reference Example.up_record
              [("metric", JObject [("__name__", JString "up");
                                   ("job", JString "x")]);
               ("values", JArray [JInt 1; JNull]);
               ("timestamps", JArray [JInt 100; JInt 200])]
              [("__name__", JString "up"); ("job", JString "x")]
              (JString "up") [JInt 1; JNull] [JInt 100; JInt 200] "")
    as (out & Hline & Hout); [vm_compute; reflexivity..|].
  exists out. split; [exact Hline|].
  exact (Hout 1 (JInt 200) eq_refl eq_refl).
Defined.

(** C8 at work: a request with [start] and no [target]. *)
Lemma missing_target_is_rejected_witness :
  let w := Example.world [100]%Z (inr Example.up_record) in
  @handle_export reference (Example.request [("start", "1")]) w =
    (inr (mkResponse 400 "Missing 'target' query field" "text/plain"), w).
Proof.
  cbv zeta. apply (@missing_target_is_rejected reference).
  vm_compute. reflexivity.
Defined.


(** C3 at work: the example record, the clock showing 100 and then 105. *)
Lemma successful_export_updates_the_instruments_witness :
  let request := Example.request [("target", Example.vm)] in
  let w := Example.world [100; 105]%Z (inr Example.up_record) in
  ∃ w', @handle_export reference request w =
          (inr (mkResponse 200 (qq "up{job=`x`} 1 100" +:+ nl
                                +:+ qq "up{job=`x`} 0 200" +:+ nl)
                           "text/plain"), w')
        ∧ count (EXPORT_COUNT w') Example.vm = 1
        ∧ count (EXPORT_LINES w') Example.vm = 1
        ∧ DURATION_METRIC w' !! Example.vm = Some 5%Z.
Proof.
  cbv zeta.
  destruct (@successful_export_updates_the_instruments reference
              (Example.request [("target", Example.vm)])
              (Example.world [100; 105]%Z (inr Example.up_record))
              Example.vm "/api/v1/export?match[]={__name__!=''}"
              Example.up_record
              (qq "up{job=`x`} 1 100" +:+ nl +:+ qq "up{job=`x`} 0 200" +:+ nl))
    as (w' & Hrun & Hcount & Hlines & Hduration & _ & _);
    [vm_compute; reflexivity..|].
  exists w'. split; [exact Hrun|]. split; [exact Hcount|].
  split; [exact Hlines|exact Hduration].
Defined.

(** * Further properties of the converter, the translator and the handler *)

(** ** The conversion of a whole response *)

Section Conversion.
Context `{Python}.

(** The text a line adds does not depend on the text gathered before it. *)
Lemma convert_line_acc (line body : string) :
  convert_line line body =
    let? text := convert_line line "" in inr (body +:+ text).
Proof.
  unfold convert_line.
  destruct (loads line) as [exc|json_metric]; [done|]. cbn [rbind].
  destruct (getitem json_metric "metric") as [exc|metric]; [done|].
  cbn [rbind].
  destruct (getitem json_metric "values") as [exc|values]; [done|].
  cbn [rbind].
  destruct (getitem json_metric "timestamps") as [exc|timestamps]; [done|].
  cbn [rbind].
  destruct (pop metric "__name__") as [exc|[metric_name labels]]; [done|].
  cbn [rbind].
  destruct (py_zip values timestamps) as [exc|pairs]; [done|].
  cbn [rbind]. by rewrite !render_samples_concat.
Qed.

(** X1.  When every line of a response converts on its own, the response
    converts to the texts of its lines put one after the other, in the
    order of the lines, after the text gathered so far. *)
Theorem rendered_text_is_the_concatenation
    (lines texts : list string) (body : string) :
  Forall2 (λ line text, convert_line line "" = inr text) lines texts →
  convert_lines lines body = inr (body +:+ String.concat "" texts).
Proof.
  intros Hall. revert body.
  induction Hall as [|line text lines texts Hline _ IH]; intros body.
  - cbn. by rewrite append_empty_r.
  - cbn [convert_lines]. rewrite convert_line_acc, Hline. cbn [rbind].
    by rewrite IH, concat_empty_cons, append_assoc.
Qed.

(** X2.  The conversion stops at the first line that fails: its exception
    is the result, whatever the lines before it produced and whatever comes
    after it; and a conversion that fails always fails in this way. *)
Theorem first_failing_line_decides (lines : list string) (body : string)
    (exc : exn) :
  convert_lines lines body = inl exc
  ↔ ∃ before line after texts,
      lines = before ++ line :: after
      ∧ Forall2 (λ line text, convert_line line "" = inr text) before texts
      ∧ convert_line line "" = inl exc.
Proof.
  split.
  - revert body. induction lines as [|line lines IH]; intros body; [done|].
    cbn [convert_lines]. rewrite convert_line_acc.
    destruct (convert_line line "") as [exc'|text] eqn:Hline; cbn [rbind].
    + intros [= ->]. exists [], line, lines, []. by repeat split.
    + intros Hrest.
      destruct (IH _ Hrest) as (before & bad & after & texts & -> & Hok & Hbad).
      exists (line :: before), bad, after, (text :: texts).
      split; [done|]. split; [by constructor|done].
  - intros (before & line & after & texts & -> & Hok & Hbad). revert body.
    induction Hok as [|good text before texts Hgood _ IH]; intros body.
    + cbn [app convert_lines]. by rewrite convert_line_acc, Hbad.
    + cbn [app convert_lines]. rewrite convert_line_acc, Hgood. cbn [rbind].
      apply IH.
Qed.

(** X3.  A line that is valid JSON but not an object (a number, a string, an
    array, [null], [true]) makes the first lookup raise [TypeError], a class
    the handler does not catch. *)
Theorem line_that_is_no_object_raises_TypeError
    (line body : string) (json_metric : value) :
  loads line = inr json_metric →
  (∀ d, json_metric ≠ JObject d) →
  ∃ msg, convert_line line body = inl (TypeError msg)
         ∧ caught (TypeError msg) = false.
Proof.
  intros Hloads Hshape. unfold convert_line. rewrite Hloads. cbn [rbind].
  destruct json_metric; cbn; eauto. by destruct (Hshape items).
Qed.

Lemma dict_get_del_eq (d : dict) (key : string) :
  dict_get (dict_del d key) key = None.
Proof.
  induction d as [|[k v] d IH]; [done|].
  cbn. destruct (String.eqb k key) eqn:Hk; [exact IH|].
  cbn. by rewrite Hk.
Qed.

Lemma dict_get_del_ne (d : dict) (key key' : string) :
  key ≠ key' → dict_get (dict_del d key) key' = dict_get d key'.
Proof.
  intros Hne. induction d as [|[k v] d IH]; [done|].
  cbn. destruct (String.eqb k key) eqn:Hk.
  - apply String.eqb_eq in Hk. subst k.
    apply String.eqb_neq in Hne. by rewrite Hne.
  - cbn. by rewrite IH.
Qed.

Lemma dict_del_sublist (d : dict) (key : string) : sublist (dict_del d key) d.
Proof.
  induction d as [|[k v] d IH]; [done|].
  cbn. destruct (String.eqb k key); by constructor.
Qed.

(** X4.  Taking the name out of the label set: [pop] returns the value
    stored under the key, the key is gone from the labels that are left,
    every other label is found as before, and the labels that are left keep
    the order they had. *)
Theorem pop_takes_out_one_key (metric rest : dict) (key : string)
    (metric_name : value) :
  pop (JObject metric) key = inr (metric_name, rest) →
  dict_get metric key = Some metric_name
  ∧ dict_get rest key = None
  ∧ (∀ other, other ≠ key → dict_get rest other = dict_get metric other)
  ∧ sublist rest metric
  ∧ length rest < length metric.
Proof.
  unfold pop. destruct (dict_get metric key) as [v|] eqn:Hget; [|done].
  intros [= <- <-]. split; [done|]. split; [apply dict_get_del_eq|].
  split; [intros other Hne; by apply dict_get_del_ne|].
  split; [apply dict_del_sublist|].
  assert (is_Some (dict_get metric key)) as Hsome by eauto.
  clear - Hsome. induction metric as [|[k v] metric IH]; [by destruct Hsome|].
  cbn in *. destruct (String.eqb k key).
  - pose proof (sublist_length _ _ (dict_del_sublist metric key)). lia.
  - cbn. specialize (IH Hsome). lia.
Qed.

End Conversion.

(** ** What the translator reads and what it leaves alone *)

Section Translation.
Context `{Python}.

(** X5.  [make_url] reads four things of the query and nothing else: the
    first values of [last], [start], [end] and [match[]].  Two queries that
    agree on them (whatever their [target], their other parameters and
    their repeated values) give the same outcome. *)
Theorem make_url_reads_four_first_values (query query' : MultiMapping)
    (w : World) :
  get query "last" = get query' "last" →
  get query "start" = get query' "start" →
  get query "end" = get query' "end" →
  get query "match[]" = get query' "match[]" →
  make_url query w = make_url query' w.
Proof.
  intros Hlast Hstart Hend Hmatch. rewrite !make_url_eq. unfold selector.
  by rewrite Hlast, Hstart, Hend, Hmatch.
Qed.

(** X6.  [make_url] changes no instrument, issues no upstream request and
    leaves the store alone; it reads the clock once when the query has
    [last], also when the value of [last] is then refused, and never
    otherwise. *)
Theorem make_url_only_reads_the_clock (query : MultiMapping) (w : World) :
  let w' := (make_url query w).2 in
  DURATION_METRIC w' = DURATION_METRIC w
  ∧ EXPORT_COUNT w' = EXPORT_COUNT w
  ∧ EXPORT_FAILS w' = EXPORT_FAILS w
  ∧ EXPORT_LINES w' = EXPORT_LINES w
  ∧ client_calls w' = client_calls w
  ∧ upstream w' = upstream w
  ∧ clock w' = clock w
  ∧ ticks w' = if contains query "last" then S (ticks w) else ticks w.
Proof.
  cbv zeta. rewrite make_url_eq, contains_get.
  destruct (get query "last") as [last|]; [|done].
  by destruct (float_of_str last).
Qed.

End Translation.

(** ** Every run of the handler *)

Lemma count_inc_le (target other : string) (amount : nat)
    (counter : gmap string nat) :
  count counter other ≤ count (inc target amount counter) other.
Proof.
  destruct (decide (target = other)) as [->|Hne].
  - rewrite count_inc. lia.
  - by rewrite count_inc_ne.
Qed.

Lemma lookup_inc_ne (target other : string) (amount : nat)
    (counter : gmap string nat) :
  target ≠ other → inc target amount counter !! other = counter !! other.
Proof. intros Hne. unfold inc. by rewrite lookup_insert_ne. Qed.

Section Runs.
Context `{Python}.

(** The handler in one equation, for every request. *)
Lemma handle_export_total (request : Request) (w : World) :
  handle_export request w =
    match get (query request) "target" with
    | None =>
        (inr (mkResponse 400 "Missing 'target' query field" "text/plain"), w)
    | Some target =>
        match make_url (query request) (time w).2 with
        | (inl exc, w1) => (inl exc, w1)
        | (inr url, w1) =>
            let w2 := (session_get target (headers request) url w1).2 in
            match (fetch_and_convert target request url w1).1 with
            | inl exc =>
                if caught exc then
                  (text_response 400 (str_exn exc),
                   (EXPORT_FAILS_inc target w2).2)
                else (inl exc, w2)
            | inr (body, lines) =>
                (text_response 200 body,
                 (EXPORT_LINES_inc target (length lines)
                    (EXPORT_COUNT_inc target
                       (DURATION_METRIC_set target
                          (float_sub (clock w2 (ticks w2)) (clock w (ticks w)))
                          (time w2).2).2).2).2)
            end
        end
    end.
Proof.
  destruct (get (query request) "target") as [target|] eqn:Htarget.
  - destruct (make_url (query request) (time w).2) as [[exc|url] w1] eqn:Hmake.
    + unfold handle_export. rewrite contains_get, Htarget. cbn [negb].
      rewrite bind_eq.
      change (time w)
        with (inr (clock w (ticks w)) : result pyfloat, (time w).2).
      cbn beta iota. rewrite bind_eq. unfold lift at 1, getone at 1.
      rewrite Htarget. cbn beta iota. by rewrite bind_eq, Hmake.
    + exact (handle_export_eq _ _ _ _ _ Htarget Hmake).
  - unfold handle_export. by rewrite contains_get, Htarget.
Qed.

(** Every run is of one of three kinds: it leaves the instruments alone (a
    request without target, or an exception that leaves the handler before
    the [except] clause is entered), it counts one failure and then builds
    the 400 response, or it counts one export and then builds the 200
    response; building a response from a text may itself raise.  The clock
    and the store are never changed. *)
Lemma handle_export_kinds (request : Request) (w : World) :
  let out := handle_export request w in
  (clock out.2 = clock w ∧ upstream out.2 = upstream w)
  ∧ ((DURATION_METRIC out.2 = DURATION_METRIC w
      ∧ EXPORT_COUNT out.2 = EXPORT_COUNT w
      ∧ EXPORT_FAILS out.2 = EXPORT_FAILS w
      ∧ EXPORT_LINES out.2 = EXPORT_LINES w
      ∧ (out.1 = inr (mkResponse 400 "Missing 'target' query field"
                                 "text/plain")
         ∨ ∃ exc, out.1 = inl exc))
     ∨ (∃ target exc,
          get (query request) "target" = Some target
          ∧ out.1 = text_response 400 (str_exn exc)
          ∧ EXPORT_FAILS out.2 = inc target 1 (EXPORT_FAILS w)
          ∧ DURATION_METRIC out.2 = DURATION_METRIC w
          ∧ EXPORT_COUNT out.2 = EXPORT_COUNT w
          ∧ EXPORT_LINES out.2 = EXPORT_LINES w)
     ∨ (∃ target rendered n d,
          get (query request) "target" = Some target
          ∧ out.1 = text_response 200 rendered
          ∧ EXPORT_COUNT out.2 = inc target 1 (EXPORT_COUNT w)
          ∧ EXPORT_LINES out.2 = inc target n (EXPORT_LINES w)
          ∧ DURATION_METRIC out.2 = <[target := d]> (DURATION_METRIC w)
          ∧ EXPORT_FAILS out.2 = EXPORT_FAILS w)).
Proof.
  cbv zeta. rewrite handle_export_total.
  destruct (get (query request) "target") as [target|] eqn:Htarget;
    [|split; [done|left; by eauto 10]].
  destruct (make_url (query request) (time w).2) as [[exc|url] w1] eqn:Hmake;
    destruct (make_url_frame _ _ _ _ Hmake)
      as (HD & HC & HF & HL & Hclock & Hup & _).
  { cbn [fst snd]. split; [by rewrite Hclock, Hup|]. left.
    rewrite HD, HC, HF, HL. by eauto 10. }
  cbn zeta. rewrite fetch_and_convert_eq. cbn [fst].
  destruct (match upstream w1 target (headers request) url with
            | inl exc => inl exc
            | inr text =>
                match convert_lines (splitlines text) "" with
                | inl exc => inl exc
                | inr body => inr (body, splitlines text)
                end
            end) as [exc|[rendered lines]].
  - destruct (caught exc).
    + split; [cbn; by rewrite Hclock, Hup|]. right. left.
      exists target, exc. cbn. by rewrite HD, HC, HF, HL.
    + split; [cbn; by rewrite Hclock, Hup|]. left.
      cbn. rewrite HD, HC, HF, HL. by eauto 10.
  - split; [cbn; by rewrite Hclock, Hup|]. right. right.
    eexists target, rendered, _, _. cbn. by rewrite HD, HC, HF, HL.
Qed.

End Runs.

(** ** What a call of the handler guarantees *)

Section Guarantees.
Context `{Python}.

(** Without [last] the path is built without the clock: it is the same in
    every world. *)
Lemma make_url_without_last (query : MultiMapping) (w w' : World)
    (url : string) :
  get query "last" = None →
  (make_url query w).1 = inr url →
  make_url query w' = (inr url, w').
Proof.
  intros Hlast. rewrite !make_url_eq, Hlast. cbn. by intros [= ->].
Qed.

(** A successful export of a request without [last] whose rendered text can
    be encoded, with the whole of the world it leaves. *)
Lemma export_without_last (request : Request) (w : World)
    (target url text rendered : string) :
  get (query request) "target" = Some target →
  get (query request) "last" = None →
  (make_url (query request) w).1 = inr url →
  upstream w target (headers request) url = inr text →
  convert_lines (splitlines text) "" = inr rendered →
  encodable rendered = true →
  let out := handle_export request w in
  out.1 = inr (mkResponse 200 rendered "text/plain")
  ∧ EXPORT_COUNT out.2 = inc target 1 (EXPORT_COUNT w)
  ∧ EXPORT_LINES out.2 = inc target (length (splitlines text)) (EXPORT_LINES w)
  ∧ DURATION_METRIC out.2 =
      <[target := float_sub (clock w (S (ticks w))) (clock w (ticks w))]>
        (DURATION_METRIC w)
  ∧ EXPORT_FAILS out.2 = EXPORT_FAILS w
  ∧ clock out.2 = clock w
  ∧ upstream out.2 = upstream w
  ∧ ticks out.2 = S (S (ticks w)).
Proof.
  intros Htarget Hlast Hurl Htext Hbody Hok. cbv zeta.
  rewrite handle_export_total, Htarget.
  rewrite (make_url_without_last _ w (time w).2 url Hlast Hurl).
  cbn zeta. rewrite fetch_and_convert_eq. cbn [fst time snd upstream].
  by rewrite Htext, Hbody, (text_response_encodable _ _ Hok).
Qed.

(** X8.  When the query has a target and a [last] that [float] refuses, the
    handler answers nothing: the [ValueError] of the conversion leaves it
    before any upstream request is issued, and no instrument changes (the
    failure is not counted); the clock was read twice. *)
Theorem refused_last_fails_before_the_fetch (request : Request) (w : World)
    (target last : string) :
  get (query request) "target" = Some target →
  get (query request) "last" = Some last →
  float_of_str last = None →
  let out := handle_export request w in
  out.1 = inl (ValueError ("could not convert string to float: "
                           +:+ str_repr last))
  ∧ client_calls out.2 = client_calls w
  ∧ EXPORT_FAILS out.2 = EXPORT_FAILS w
  ∧ EXPORT_COUNT out.2 = EXPORT_COUNT w
  ∧ EXPORT_LINES out.2 = EXPORT_LINES w
  ∧ DURATION_METRIC out.2 = DURATION_METRIC w
  ∧ ticks out.2 = S (S (ticks w)).
Proof.
  intros Htarget Hlast Hfloat. cbv zeta.
  by rewrite handle_export_total, Htarget, make_url_eq, Hlast, Hfloat.
Qed.

(** X10.  Whatever the request and whatever the outcome, a call never
    changes the clock or the store, never lowers a counter, raises the
    export counter and the failure counter of a label by at most 1, and
    leaves the four instruments as they were for every label that is not
    the target of the request. *)
Theorem instruments_only_grow (request : Request) (w : World) :
  let w' := (handle_export request w).2 in
  clock w' = clock w
  ∧ upstream w' = upstream w
  ∧ (∀ t, count (EXPORT_COUNT w) t ≤ count (EXPORT_COUNT w') t
                                   ≤ count (EXPORT_COUNT w) t + 1)
  ∧ (∀ t, count (EXPORT_FAILS w) t ≤ count (EXPORT_FAILS w') t
                                   ≤ count (EXPORT_FAILS w) t + 1)
  ∧ (∀ t, count (EXPORT_LINES w) t ≤ count (EXPORT_LINES w') t)
  ∧ (∀ t, get (query request) "target" ≠ Some t →
          DURATION_METRIC w' !! t = DURATION_METRIC w !! t
          ∧ EXPORT_COUNT w' !! t = EXPORT_COUNT w !! t
          ∧ EXPORT_FAILS w' !! t = EXPORT_FAILS w !! t
          ∧ EXPORT_LINES w' !! t = EXPORT_LINES w !! t).
Proof.
  cbv zeta.
  assert (∀ target t c, count (inc target 1 c) t ≤ count c t + 1) as Hstep.
  { intros target t c. destruct (decide (target = t)) as [->|Hne].
    - by rewrite count_inc.
    - rewrite count_inc_ne by done. lia. }
  destruct (handle_export_kinds request w) as [[Hclock Hup] Hkind].
  split; [done|]. split; [done|].
  destruct Hkind as [(-> & -> & -> & -> & _)
                    |[(target & exc & Htarget & _ & -> & -> & -> & ->)
                     |(target & r & n & d & Htarget & _ & -> & -> & -> & ->)]].
  - repeat split; intros; lia.
  - repeat split; intros; try lia; try apply count_inc_le; try apply Hstep.
    apply lookup_inc_ne. congruence.
  - repeat split; intros; try lia; try apply count_inc_le; try apply Hstep.
    + apply lookup_insert_ne. congruence.
    + apply lookup_inc_ne. congruence.
    + apply lookup_inc_ne. congruence.
Qed.

(** X11.  What the response tells about the instruments.  A response is
    always [text/plain] with status 200 or 400.  Status 200 means one more
    export counted for the target and no failure counted.  Status 400 means
    nothing was added to the export counter, the sample counter or the
    duration gauge; it is the fixed text about the missing target, with no
    failure counted, when the query has no target, and one more failure
    counted for the target otherwise. *)
Theorem response_tells_what_was_counted (request : Request) (w : World)
    (r : Response) :
  (handle_export request w).1 = inr r →
  let w' := (handle_export request w).2 in
  content_type r = "text/plain"
  ∧ (status r = 200 ∨ status r = 400)
  ∧ (status r = 200 →
     ∃ target, get (query request) "target" = Some target
               ∧ count (EXPORT_COUNT w') target
                 = count (EXPORT_COUNT w) target + 1
               ∧ EXPORT_FAILS w' = EXPORT_FAILS w)
  ∧ (status r = 400 →
     EXPORT_COUNT w' = EXPORT_COUNT w
     ∧ EXPORT_LINES w' = EXPORT_LINES w
     ∧ DURATION_METRIC w' = DURATION_METRIC w
     ∧ match get (query request) "target" with
       | None => body r = "Missing 'target' query field"
                 ∧ EXPORT_FAILS w' = EXPORT_FAILS w
       | Some target => count (EXPORT_FAILS w') target
                        = count (EXPORT_FAILS w) target + 1
       end).
Proof.
  cbv zeta. rewrite handle_export_total.
  destruct (get (query request) "target") as [target|] eqn:Htarget.
  2: { cbn. intros [= <-]. cbn. repeat split; auto; discriminate. }
  destruct (make_url (query request) (time w).2) as [[exc|url] w1] eqn:Hmake;
    [done|].
  destruct (make_url_frame _ _ _ _ Hmake) as (HD & HC & HF & HL & _).
  cbn zeta. rewrite fetch_and_convert_eq. cbn [fst].
  destruct (match upstream w1 target (headers request) url with
            | inl exc => inl exc
            | inr text =>
                match convert_lines (splitlines text) "" with
                | inl exc => inl exc
                | inr body => inr (body, splitlines text)
                end
            end) as [exc|[rendered lines]].
  - destruct (caught exc); [|done]. cbn -[count inc text_response].
    intros ->%text_response_inr.
    cbn -[count inc]. rewrite HD, HC, HF, HL. cbn -[count inc].
    repeat split; auto using count_inc; discriminate.
  - cbn -[count inc text_response]. intros ->%text_response_inr.
    cbn -[count inc]. rewrite HD, HC, HF, HL. cbn -[count inc].
    repeat split; eauto using count_inc; discriminate.
Qed.

(** X12.  For a request without [last], the outcome of a call (the response,
    or the exception that leaves the handler) depends on the request and on
    the upstream store only: not on the clock, not on the instruments, not
    on the calls of the client made before. *)
Theorem outcome_without_last_depends_on_the_store_only
    (request : Request) (w1 w2 : World) :
  get (query request) "last" = None →
  upstream w1 = upstream w2 →
  (handle_export request w1).1 = (handle_export request w2).1.
Proof.
  intros Hlast Hup. rewrite !handle_export_total.
  destruct (get (query request) "target") as [target|]; [|done].
  rewrite !make_url_eq, Hlast. cbn zeta.
  rewrite !fetch_and_convert_eq. cbn [fst time snd upstream]. rewrite Hup.
  destruct (upstream w2 target (headers request) _) as [exc|text].
  - by destruct (caught exc).
  - destruct (convert_lines (splitlines text) "") as [exc|rendered]; [|done].
    by destruct (caught exc).
Qed.

(** X13.  The same request without [last] made twice in a row against the
    same store, when the text rendered from the stored lines holds no lone
    surrogate (so that the response can be built from it): both calls
    answer 200 with the same text, the export
    counter of the target is up by 2 and its sample counter by twice the
    number of lines, no failure is counted, and the duration gauge holds
    the duration of the second call only (fourth reading of the clock minus
    third). *)
Theorem two_exports_in_a_row (request : Request) (w : World)
    (target url text rendered : string) :
  get (query request) "target" = Some target →
  get (query request) "last" = None →
  (make_url (query request) w).1 = inr url →
  upstream w target (headers request) url = inr text →
  convert_lines (splitlines text) "" = inr rendered →
  encodable rendered = true →
  let first := handle_export request w in
  let second := handle_export request first.2 in
  first.1 = inr (mkResponse 200 rendered "text/plain")
  ∧ second.1 = inr (mkResponse 200 rendered "text/plain")
  ∧ count (EXPORT_COUNT second.2) target = count (EXPORT_COUNT w) target + 2
  ∧ count (EXPORT_LINES second.2) target
    = count (EXPORT_LINES w) target + 2 * length (splitlines text)
  ∧ count (EXPORT_FAILS second.2) target = count (EXPORT_FAILS w) target
  ∧ DURATION_METRIC second.2 !! target
    = Some (float_sub (clock w (3 + ticks w)) (clock w (2 + ticks w))).
Proof.
  intros Htarget Hlast Hurl Htext Hbody Hok. cbv zeta.
  destruct (export_without_last request w target url text rendered
              Htarget Hlast Hurl Htext Hbody Hok)
    as (Hfirst & HC & HL & HD & HF & Hclock & Hup & Hticks).
  set (w' := (handle_export request w).2) in *.
  assert ((make_url (query request) w').1 = inr url) as Hurl'.
  { by rewrite (make_url_without_last _ w w' url Hlast Hurl). }
  rewrite <- Hup in Htext.
  destruct (export_without_last request w' target url text rendered
              Htarget Hlast Hurl' Htext Hbody Hok)
    as (Hsecond & HC' & HL' & HD' & HF' & _).
  split; [done|]. split; [done|].
  rewrite HC', HC, HL', HL, HF', HF, HD', Hclock, Hticks.
  rewrite !count_inc, lookup_insert_eq. repeat split; try done; lia.
Qed.

(** X14.  An upstream response with an empty body is a successful export
    of no line: the answer is 200 with an empty text, one export is counted
    and no failure, and the sample counter of the target keeps its value
    but exists from then on, also when the label was never used before. *)
Theorem empty_response_is_a_successful_export (request : Request)
    (w : World) (target url : string) :
  get (query request) "target" = Some target →
  (make_url (query request) (time w).2).1 = inr url →
  upstream w target (headers request) url = inr "" →
  let out := handle_export request w in
  out.1 = inr (mkResponse 200 "" "text/plain")
  ∧ count (EXPORT_COUNT out.2) target = count (EXPORT_COUNT w) target + 1
  ∧ EXPORT_LINES out.2 !! target = Some (count (EXPORT_LINES w) target)
  ∧ EXPORT_FAILS out.2 = EXPORT_FAILS w.
Proof.
  intros Htarget Hurl Htext. cbv zeta. rewrite handle_export_total, Htarget.
  destruct (make_url (query request) (time w).2) as [r w1] eqn:Hmake.
  cbn in Hurl. subst r.
  destruct (make_url_frame _ _ _ _ Hmake) as (_ & HC & HF & HL & _ & Hup & _).
  cbn zeta. rewrite fetch_and_convert_eq. cbn [fst]. rewrite Hup.
  cbn [time snd upstream]. rewrite Htext.
  change (splitlines "") with (@nil string). cbn -[count inc].
  rewrite HC, HF, HL. cbn -[count inc].
  split; [done|]. split; [apply count_inc|]. split; [|done].
  unfold inc, count. rewrite lookup_insert_eq. f_equal. lia.
Qed.

(** X15.  The rendered text is encoded when the response is built, after
    the instruments were updated and outside the [try].  When the store
    answers with lines that are all converted and the rendered text holds a
    lone surrogate (a name or a label value written with an escape such as
    [\ud83d] in the JSON of the store), the export is counted, its lines
    and its duration are recorded, no failure is counted, and the
    [UnicodeEncodeError] of the encoding leaves the handler: no response is
    made. *)
Theorem export_is_counted_before_its_text_is_encoded (request : Request)
    (w : World) (target url text rendered : string) :
  get (query request) "target" = Some target →
  (make_url (query request) (time w).2).1 = inr url →
  upstream w target (headers request) url = inr text →
  convert_lines (splitlines text) "" = inr rendered →
  encodable rendered = false →
  let out := handle_export request w in
  (∃ msg, encode rendered = inl (ValueError msg)
          ∧ out.1 = inl (ValueError msg))
  ∧ count (EXPORT_COUNT out.2) target = count (EXPORT_COUNT w) target + 1
  ∧ count (EXPORT_LINES out.2) target
    = count (EXPORT_LINES w) target + length (splitlines text)
  ∧ is_Some (DURATION_METRIC out.2 !! target)
  ∧ EXPORT_FAILS out.2 = EXPORT_FAILS w.
Proof.
  intros Htarget Hurl Htext Hbody Hno. cbv zeta.
  rewrite handle_export_total, Htarget.
  destruct (make_url (query request) (time w).2) as [r w1] eqn:Hmake.
  cbn in Hurl. subst r.
  destruct (make_url_frame _ _ _ _ Hmake) as (HD & HC & HF & HL & _ & Hup & _).
  cbn zeta. rewrite fetch_and_convert_eq. cbn [fst]. rewrite Hup.
  cbn [time snd upstream]. rewrite Htext, Hbody.
  cbn -[count inc text_response]. rewrite HC, HF, HL.
  cbn -[count inc text_response]. rewrite !count_inc, lookup_insert_eq.
  split; [|by eauto].
  destruct (surrogates_not_allowed_some _ 0 Hno) as [msg Hmsg].
  exists msg. unfold text_response, encode. by rewrite Hmsg.
Qed.

End Guarantees.

(** ** The further properties at work *)

(** X1 at work: a response of two records. *)
Lemma rendered_text_is_the_concatenation_witness :
  @convert_lines reference [Example.up_record; Example.uneven_record] "" =
    inr ("" +:+ String.concat ""
                  [qq "up{job=`x`} 1 100" +:+ nl
                   +:+ qq "up{job=`x`} 0 200" +:+ nl;
                   "up{} 1 100" +:+ nl +:+ "up{} 2 200" +:+ nl]).
Proof.
  apply (@rendered_text_is_the_concatenation reference).
  repeat constructor; vm_compute; reflexivity.
Defined.

(** X3 at work: a line that is a JSON array. *)
Lemma line_that_is_no_object_raises_TypeError_witness :
  ∃ msg, @convert_line reference "[1,2]" "" = inl (TypeError msg)
         ∧ caught (TypeError msg) = false.
Proof.
  apply (@line_that_is_no_object_raises_TypeError reference "[1,2]" ""
           (JArray [JInt 1; JInt 2])).
  - vm_compute. reflexivity.
  - intros d Hd. discriminate Hd.
Defined.

(** X4 at work: the label set of the example record. *)
Lemma pop_takes_out_one_key_witness :
  let metric : list (string * json Z) :=
    [("__name__", JString "up"); ("job", JString "x")] in
  let rest : list (string * json Z) := [("job", JString "x")] in
  @dict_get reference metric "__name__" = Some (JString "up")
  ∧ @dict_get reference rest "__name__" = None
  ∧ (∀ other, other ≠ "__name__" →
       @dict_get reference rest other = @dict_get reference metric other)
  ∧ sublist rest metric
  ∧ length rest < length metric.
Proof.
  cbv zeta.
  apply (@pop_takes_out_one_key reference
           [("__name__", JString "up"); ("job", JString "x")]
           [("job", JString "x")] "__name__" (JString "up")).
  vm_compute. reflexivity.
Defined.

(** X5 at work: a target, another parameter and a second [start] change
    nothing. *)
Lemma make_url_reads_four_first_values_witness :
  let w := Example.world [] (inr "") in
  @make_url reference
    [("target", Example.vm); ("start", "1"); ("start", "2"); ("step", "5")] w
  = @make_url reference [("start", "1")] w.
Proof.
  cbv zeta.
  apply (@make_url_reads_four_first_values reference);
    vm_compute; reflexivity.
Defined.

(** X7 at work: the client gives up with a timeout. *)
Lemma uncaught_failure_escapes_witness :
  let timeout := OtherError "TimeoutError" "" in
  ∃ w', Example.export (inl timeout) = (inl timeout, w')
        ∧ EXPORT_FAILS w' = ∅ ∧ EXPORT_COUNT w' = ∅
        ∧ EXPORT_LINES w' = ∅ ∧ DURATION_METRIC w' = ∅.
Proof.
  cbv zeta. unfold Example.export.
  apply (@uncaught_failure_escapes reference
           (Example.request [("target", Example.vm)])
           (Example.world [100; 101]%Z (inl (OtherError "TimeoutError" "")))
           Example.vm "/api/v1/export?match[]={__name__!=''}"
           (OtherError "TimeoutError" "")).
  - vm_compute. reflexivity.
  - vm_compute. reflexivity.
  - left. vm_compute. reflexivity.
  - reflexivity.
Defined.

(** X8 at work: [last=abc]. *)
Lemma refused_last_fails_before_the_fetch_witness :
  let out := @handle_export reference
               (Example.request [("target", Example.vm); ("last", "abc")])
               (Example.world [100; 101]%Z (inr Example.up_record)) in
  out.1 = inl (ValueError "could not convert string to float: 'abc'")
  ∧ client_calls out.2 = []
  ∧ EXPORT_FAILS out.2 = ∅
  ∧ EXPORT_COUNT out.2 = ∅
  ∧ EXPORT_LINES out.2 = ∅
  ∧ DURATION_METRIC out.2 = ∅
  ∧ ticks out.2 = 2.
Proof.
  cbv zeta.
  apply (@refused_last_fails_before_the_fetch reference
           (Example.request [("target", Example.vm); ("last", "abc")])
           (Example.world [100; 101]%Z (inr Example.up_record))
           Example.vm "abc"); vm_compute; reflexivity.
Defined.

(** X11 at work: the answer to a line that is not JSON. *)
Lemma response_tells_what_was_counted_witness :
  let w' := (Example.export (inr "oops")).2 in
  EXPORT_COUNT w' = ∅ ∧ EXPORT_LINES w' = ∅ ∧ DURATION_METRIC w' = ∅
  ∧ count (EXPORT_FAILS w') Example.vm = 1.
Proof.
  cbv zeta.
  destruct (@response_tells_what_was_counted reference
              (Example.request [("target", Example.vm)])
              (Example.world [100; 101]%Z (inr "oops"))
              (mkResponse 400 "Expecting value: line 1 column 1 (char 0)"
                          "text/plain"))
    as (_ & _ & _ & Hbad); [vm_compute; reflexivity|].
  exact (Hbad eq_refl).
Defined.

(** X12 at work: the same export with two clocks. *)
Lemma outcome_without_last_depends_on_the_store_only_witness :
  let request := Example.request [("target", Example.vm); ("end", "9")] in
  (@handle_export reference request
     (Example.world [100; 101]%Z (inr Example.up_record))).1
  = (@handle_export reference request
       (Example.world [7; 3]%Z (inr Example.up_record))).1.
Proof.
  cbv zeta.
  apply (@outcome_without_last_depends_on_the_store_only reference).
  - vm_compute. reflexivity.
  - reflexivity.
Defined.

(** X13 at work: the clock shows 100, 101, 200 and 207. *)
Lemma two_exports_in_a_row_witness :
  let request := Example.request [("target", Example.vm)] in
  let first := @handle_export reference request
                 (Example.world [100; 101; 200; 207]%Z
                                (inr Example.up_record)) in
  let second := @handle_export reference request first.2 in
  count (EXPORT_COUNT second.2) Example.vm = 2
  ∧ count (EXPORT_LINES second.2) Example.vm = 2
  ∧ count (EXPORT_FAILS second.2) Example.vm = 0
  ∧ DURATION_METRIC second.2 !! Example.vm = Some 7%Z.
Proof.
  cbv zeta.
  destruct (@two_exports_in_a_row reference
              (Example.request [("target", Example.vm)])
              (Example.world [100; 101; 200; 207]%Z (inr Example.up_record))
              Example.vm "/api/v1/export?match[]={__name__!=''}"
              Example.up_record
              (qq "up{job=`x`} 1 100" +:+ nl +:+ qq "up{job=`x`} 0 200" +:+ nl))
    as (_ & _ & Hcount & Hlines & Hfails & Hduration);
    [vm_compute; reflexivity..|].
  split; [exact Hcount|]. split; [exact Hlines|].
  split; [exact Hfails|exact Hduration].
Defined.

(** X14 at work: the store answers with nothing. *)
Lemma empty_response_is_a_successful_export_witness :
  let out := Example.export (inr "") in
  out.1 = inr (mkResponse 200 "" "text/plain")
  ∧ count (EXPORT_COUNT out.2) Example.vm = 1
  ∧ EXPORT_LINES out.2 !! Example.vm = Some 0
  ∧ EXPORT_FAILS out.2 = ∅.
Proof.
  cbv zeta. unfold Example.export.
  apply (@empty_response_is_a_successful_export reference
           (Example.request [("target", Example.vm)])
           (Example.world [100; 101]%Z (inr ""))
           Example.vm "/api/v1/export?match[]={__name__!=''}");
    vm_compute; reflexivity.
Defined.

(** X2 at work: the second of three lines is not JSON. *)
Lemma first_failing_line_decides_witness :
  @convert_lines reference
    [Example.up_record; "oops"; Example.uneven_record] ""
  = inl (JSONDecodeError "Expecting value: line 1 column 1 (char 0)").
Proof.
  apply (proj2 (@first_failing_line_decides reference
                  [Example.up_record; "oops"; Example.uneven_record] ""
                  (JSONDecodeError
                     "Expecting value: line 1 column 1 (char 0)"))).
  exists [Example.up_record], "oops", [Example.uneven_record],
         [qq "up{job=`x`} 1 100" +:+ nl +:+ qq "up{job=`x`} 0 200" +:+ nl].
  split; [reflexivity|].
  split; [repeat constructor|]; vm_compute; reflexivity.
Defined.

(** X15 at work: the store holds a record whose name is the lone surrogate
    [\ud83d]; the export is counted and the handler raises. *)
Lemma export_is_counted_before_its_text_is_encoded_witness :
  let out := Example.export (inr Example.surrogate_record) in
  (∃ msg, out.1 = inl (ValueError msg)
          ∧ msg = "'utf-8' codec can't encode character '\ud83d' "
                  +:+ "in position 0: surrogates not allowed")
  ∧ count (EXPORT_COUNT out.2) Example.vm = 1
  ∧ count (EXPORT_LINES out.2) Example.vm = 1
  ∧ EXPORT_FAILS out.2 = ∅.
Proof.
  cbv zeta. unfold Example.export.
  edestruct (@export_is_counted_before_its_text_is_encoded reference
               (Example.request [("target", Example.vm)])
               (Example.world [100; 101]%Z (inr Example.surrogate_record))
               Example.vm "/api/v1/export?match[]={__name__!=''}"
               Example.surrogate_record)
    as ((msg & Hmsg & Hout) & Hcount & Hlines & _ & Hfails);
    [vm_compute; reflexivity..|].
  split; [|by repeat apply conj].
  exists msg. split; [exact Hout|].
  vm_compute in Hmsg. by injection Hmsg as <-.
Defined.
